(** * Refiller: login, medication refill request and configuration loading

    A shallow embedding of [main.py], [src/config.py] and
    [src/refiller_client.py].  The program is a single sequential pass:
    load a TOML configuration, build a client, POST a login form, POST a
    refill form with the cookie obtained, close the client.

    What lies outside the repository is the environment [env] of a run:
    the file system and [tomllib] (what a path holds and how it parses),
    the remote service behind [aiohttp] (what a POST answers) and the text
    Python gives to objects that are not strings.  Every theorem
    quantifies over all environments. *)

From Stdlib Require Import ZArith String Ascii List Lia.
From Stdlib Require Import Floats.SpecFloat.
From stdpp Require Import gmap strings list.

Local Open Scope string_scope.

(** ** TOML values, as [tomllib.load] returns them *)

Module toml.

#[warnings="-register-all"] Inductive value : Type :=
| TStr (s : string)
| TInt (n : Z)
| TFloat (f : spec_float)
| TBool (b : bool)
| TDateTime (iso : string)
| TDate (iso : string)
| TTime (iso : string)
| TArray (items : list value)
| TTable (entries : gmap string value).

(** Python's truth value of a TOML value ([bool(v)]): empty string, zero
    (of either sign for a float; a NaN is true), [False] and empty
    containers are false; dates and times are always true. *)
Definition truthy (v : value) : bool :=
  match v with
  | TStr s => negb (String.eqb s "")
  | TInt n => negb (Z.eqb n 0)
  | TFloat f => match f with S754_zero _ => false | _ => true end
  | TBool b => b
  | TDateTime _ | TDate _ | TTime _ => true
  | TArray items => negb (Nat.eqb (length items) 0)
  | TTable entries => negb (Nat.eqb (size entries) 0)
  end.

(** A parsed document: the top-level [dict]. *)
Abbreviation document := (gmap string value).

End toml.
Import toml.

(** ** Exceptions and results *)

(** The instances of Python's [Exception] that the program raises or
    receives.  [TOMLDecodeError] is a subclass of [ValueError];
    [ClientResponseError] is what [aiohttp]'s [raise_for_status] raises and
    carries the response's status and reason; [OtherException] stands for
    any other [Exception] a library call raises (connection refused,
    timeout, ...), with its class name and its text. *)
Inductive exception : Type :=
| FileNotFoundError (msg : string)
| KeyError (key : string)
| ValueError (msg : string)
| TOMLDecodeError (msg : string)
| ClientResponseError (status : Z) (message : string)
| OtherException (cls : string) (text : string).

Inductive result (A : Type) : Type :=
| Ok (a : A)
| Raise (e : exception).
Arguments Ok {A} a.
Arguments Raise {A} e.

(** The spec's names for the two failures of the client. *)
Definition HttpError (status : Z) (reason : string) : exception :=
  ClientResponseError status reason.
Definition AuthenticationError (msg : string) : exception :=
  ValueError msg.

(** [str.lower] on ASCII text. *)
Definition ascii_lower (c : ascii) : ascii :=
  let n := nat_of_ascii c in
  if (65 <=? n)%nat && (n <=? 90)%nat then ascii_of_nat (n + 32) else c.

Fixpoint lower (s : string) : string :=
  match s with
  | EmptyString => EmptyString
  | String c rest => String (ascii_lower c) (lower rest)
  end.

(** ** aiohttp: requests and responses *)

Module aiohttp.

(** The arguments of [ClientSession.post]. *)
Record request : Type := {
  url : string;
  data : list (string * value);
  headers : list (string * string);
  allow_redirects : bool
}.

(** A [ClientResponse]: status line and headers.  The headers are a
    case-insensitive multi-dict: an association list in arrival order. *)
Record response : Type := {
  status : Z;
  reason : string;
  resp_headers : list (string * string)
}.

(** [CIMultiDictProxy.get]: the first value under a key, compared without
    case; [None] when there is none. *)
Fixpoint headers_get (key : string) (h : list (string * string)) : option string :=
  match h with
  | [] => None
  | (k, v) :: rest =>
      if String.eqb (lower k) (lower key) then Some v else headers_get key rest
  end.

(** [ClientResponse.ok] is [400 > status]; [raise_for_status] raises
    [ClientResponseError(status=status, message=reason)] when not ok. *)
Definition ok (r : response) : bool := (status r <? 400)%Z.

Definition raise_for_status (r : response) : result unit :=
  if negb (ok r) then Raise (ClientResponseError (status r) (reason r))
  else Ok tt.

(** *** What [ClientSession.post] does with its request

    A call of [post] is one request to the service, or several: when
    [allow_redirects] holds, a redirect answer is followed and the response
    handed back is the answer to the last request made. *)

Inductive method : Type := GET | POST.

(** One request as the service receives it. *)
Record wire_request : Type := {
  w_method : method;
  w_url : string;
  w_data : option (list (string * value));
  w_headers : list (string * string)
}.

(** The other side of the session: [send] is the service's answer to one
    request (or the exception of a failed connection).  [next_target]
    is the library's handling of a [Location] value: from the request
    just answered, the method of the next one and the value, the URL and
    the headers of the next request, or the exception raised for a value
    that is no HTTP URL.  [too_many_redirects] is the [TooManyRedirects]
    the session raises. *)
Record transport : Type := {
  send : wire_request -> result response;
  next_target :
    wire_request -> method -> string ->
    result (string * list (string * string));
  too_many_redirects : exception
}.

Definition is_redirect (st : Z) : bool :=
  (st =? 301)%Z || (st =? 302)%Z || (st =? 303)%Z
  || (st =? 307)%Z || (st =? 308)%Z.

Definition max_redirects : nat := 10.

(** [resp.headers.get("Location") or resp.headers.get("URI")] *)
Definition location (r : response) : option string :=
  match headers_get "Location" (resp_headers r) with
  | Some l =>
      if String.eqb l "" then headers_get "URI" (resp_headers r) else Some l
  | None => headers_get "URI" (resp_headers r)
  end.

(** After a 303, and after a 301 or 302 to a POST, the next request is a
    GET without a body; a 307 or 308 repeats the method and the body. *)
Definition becomes_get (st : Z) (m : method) : bool :=
  (st =? 303)%Z
  || (((st =? 301)%Z || (st =? 302)%Z)
      && match m with POST => true | GET => false end).

(** The request loop of the session.  [left] is the number of redirect
    answers that may still be followed: the session counts them and raises
    at the one that reaches [max_redirects].  A redirect answer without a
    [Location] is handed back as it is. *)
Fixpoint request_loop (tr : transport) (allow_redirects : bool) (left : nat)
    (rq : wire_request) : result response :=
  match send tr rq with
  | Raise e => Raise e
  | Ok resp =>
      if is_redirect (status resp) && allow_redirects then
        match left with
        | O => Raise (too_many_redirects tr)
        | S left' =>
            let change := becomes_get (status resp) (w_method rq) in
            let method' := if change then GET else w_method rq in
            let data' := if change then None else w_data rq in
            match location resp with
            | None => Ok resp
            | Some r_url =>
                match next_target tr rq method' r_url with
                | Raise e => Raise e
                | Ok (url', headers') =>
                    request_loop tr allow_redirects left'
                      {| w_method := method'; w_url := url';
                         w_data := data'; w_headers := headers' |}
                end
            end
        end
      else Ok resp
  end.

(** The first request of a call of [post]. *)
Definition initial (req : request) : wire_request :=
  {| w_method := POST; w_url := url req;
     w_data := Some (data req); w_headers := headers req |}.

(** [ClientSession.post(url, data=..., headers=..., allow_redirects=...)] *)
Definition session_post (tr : transport) (req : request) : result response :=
  request_loop tr (allow_redirects req) (max_redirects - 1) (initial req).

End aiohttp.

(** ** The environment of a run *)

Record env : Type := {
  (** [os.environ["CONFIG_PATH"]] *)
  CONFIG_PATH : string;
  (** [None]: no file at the path; otherwise what [tomllib.load] does with
      the file: a document or a raised exception. *)
  files : string -> option (result document);
  (** What [ClientSession.post] hands back for a request: a response (the
      last one, when the request allows redirects and one was followed), or
      the exception the call raised. *)
  http_post : aiohttp.request -> result aiohttp.response;
  (** [str(v)] for a TOML value that is not a string. *)
  str_value : value -> string;
  (** [str(e)] for a [ClientResponseError]. *)
  str_ClientResponseError : Z -> string -> string
}.

(** [str(v)] / [f"{v}"]. *)
Definition py_str (w : env) (v : value) : string :=
  match v with
  | TStr s => s
  | _ => str_value w v
  end.

(** [str(e)] / [f"{e}"].  A [KeyError] shows the [repr] of its key; the keys
    here are plain field names. *)
Definition exc_str (w : env) (e : exception) : string :=
  match e with
  | FileNotFoundError msg => msg
  | KeyError key => "'" +:+ key +:+ "'"
  | ValueError msg => msg
  | TOMLDecodeError msg => msg
  | ClientResponseError st msg => str_ClientResponseError w st msg
  | OtherException _ text => text
  end.

(** ** Effects: the trace of a run *)

(** What a run does that can be seen from outside: log records, the
    construction of the client and the calls of its methods (as a recording
    double of the client keeps them), and the POSTs of the session. *)

Inductive event : Type :=
| LogInfo (msg : string)
| LogError (msg : string)
| NewClient (base_url : value)
| CallLogin (username password office : value)
| CallRequestRefill (cookie : string) (med : value)
| Post (req : aiohttp.request)
| CallClose.

(** A computation appends events to the trace and returns or raises. *)
Definition M (A : Type) : Type := list event -> result A * list event.

Definition ret {A} (a : A) : M A := fun t => (Ok a, t).
Definition raise {A} (e : exception) : M A := fun t => (Raise e, t).
Definition lift {A} (r : result A) : M A := fun t => (r, t).
Definition emit (ev : event) : M unit := fun t => (Ok tt, (t ++ [ev])%list).

Definition bind {A B} (m : M A) (k : A -> M B) : M B :=
  fun t =>
    match m t with
    | (Ok a, t1) => k a t1
    | (Raise e, t1) => (Raise e, t1)
    end.

Declare Scope py_scope.
Delimit Scope py_scope with py.
Notation "x <- m ;; k" := (bind m (fun x => k))
  (at level 100, m at next level, right associativity) : py_scope.
Notation "m ;; k" := (bind m (fun _ => k))
  (at level 100, right associativity) : py_scope.
Local Open Scope py_scope.

(** [try: body / except Exception as e: handler e / finally: final].
    The final block runs on every path; an exception of its own replaces
    the outcome. *)
Definition try_except_finally {A}
    (body : M A) (handler : exception -> M A) (final : M unit) : M A :=
  fun t =>
    let '(r, t1) :=
      match body t with
      | (Ok a, t1) => (Ok a, t1)
      | (Raise e, t1) => handler e t1
      end in
    match final t1 with
    | (Ok _, t2) => (r, t2)
    | (Raise e', t2) => (Raise e', t2)
    end.

Definition logger_info (msg : string) : M unit := emit (LogInfo msg).
Definition logger_error (msg : string) : M unit := emit (LogError msg).

(** ** src/config.py *)

Module config.

Record Config : Type := {
  username : value;
  password : value;
  base_url : value;
  med_id : value;
  office : value
}.

Definition required_fields : list string :=
  ["username"; "password"; "base_url"; "med_id"; "office"].

(** [field not in config or not config[field]] *)
Definition missing_or_empty (config : document) (field : string) : bool :=
  match config !! field with
  | None => true
  | Some v => negb (truthy v)
  end.

(** [config[key]]: a [KeyError] when the key is absent. *)
Definition getitem (config : document) (key : string) : result value :=
  match config !! key with
  | Some v => Ok v
  | None => Raise (KeyError key)
  end.

Definition rbind {A B} (r : result A) (k : A -> result B) : result B :=
  match r with
  | Ok a => k a
  | Raise e => Raise e
  end.

(** [Config.from_toml(path)] in the environment [w]. *)
Definition from_toml (w : env) (path : string) : result Config :=
  match files w path with
  | None => Raise (FileNotFoundError ("Config file not found at " +:+ path))
  | Some loaded =>
    rbind loaded (fun config =>
      let missing_or_empty_fields :=
        List.filter (missing_or_empty config) required_fields in
      match missing_or_empty_fields with
      | _ :: _ =>
          Raise (ValueError
            ("Missing or empty required fields in config file: "
             +:+ String.concat ", " missing_or_empty_fields))
      | [] =>
          let built :=
            rbind (getitem config "username") (fun username =>
            rbind (getitem config "password") (fun password =>
            rbind (getitem config "base_url") (fun base_url =>
            rbind (getitem config "med_id") (fun med_id =>
            rbind (getitem config "office") (fun office =>
            Ok {| username := username; password := password;
                  base_url := base_url; med_id := med_id;
                  office := office |}))))) in
          match built with
          | Raise ((KeyError _ | ValueError _ | TOMLDecodeError _) as e) =>
              Raise (ValueError ("Error parsing config file: " +:+ exc_str w e))
          | other => other
          end
      end)
  end.

End config.

(** ** src/refiller_client.py *)

Module refiller_client.

(** The dataclass holds the base URL; its [aiohttp.ClientSession] is the
    one session of the run, reached through [http_post]. *)
Record RefillerClient : Type := { base_url : value }.

Definition new (base_url : value) : M RefillerClient :=
  emit (NewClient base_url) ;; ret {| base_url := base_url |}.

(** [async with self.client.post(...) as response]: the POST is recorded,
    then answers or raises. *)
Definition post (w : env) (req : aiohttp.request) : M aiohttp.response :=
  emit (Post req) ;; lift (http_post w req).

Definition login (w : env) (self : RefillerClient)
    (username password office : value) : M string :=
  emit (CallLogin username password office) ;;
  let login_url := py_str w (base_url self) +:+ "/login" in
  let payload :=
    [("office", office); ("username", username); ("password", password)] in
  response <- post w {|
      aiohttp.url := login_url;
      aiohttp.data := payload;
      aiohttp.headers :=
        [("Content-Type", "application/x-www-form-urlencoded")];
      aiohttp.allow_redirects := false |} ;;
  lift (aiohttp.raise_for_status response) ;;
  let cookie := aiohttp.headers_get "Set-Cookie" (aiohttp.resp_headers response) in
  match cookie with
  | None => raise (ValueError "Login failed: No session cookie received")
  | Some c =>
      if String.eqb c ""
      then raise (ValueError "Login failed: No session cookie received")
      else ret c
  end.

(** The POST of [request_refill] passes no [allow_redirects]: [aiohttp]'s
    default, [True], applies. *)
Definition request_refill (w : env) (self : RefillerClient)
    (cookie : string) (med : value) : M bool :=
  emit (CallRequestRefill cookie med) ;;
  let refill_url := py_str w (base_url self) +:+ "/msgs/newmsg" in
  let payload :=
    [("meds", med); ("subject", TStr "R"); ("reply", TStr "");
     ("type", TStr "R"); ("msg", TStr "")] in
  let headers :=
    [("Content-Type", "application/x-www-form-urlencoded");
     ("Cookie", cookie)] in
  response <- post w {|
      aiohttp.url := refill_url;
      aiohttp.data := payload;
      aiohttp.headers := headers;
      aiohttp.allow_redirects := true |} ;;
  lift (aiohttp.raise_for_status response) ;;
  ret (Z.eqb (aiohttp.status response) 200).

Definition close (self : RefillerClient) : M unit := emit CallClose.

End refiller_client.

(** ** main.py *)

Module main.

Import config refiller_client.

Definition main (w : env) : M unit :=
  logger_info "💊 Starting refiller service..." ;;
  config <- lift (from_toml w (CONFIG_PATH w)) ;;
  client <- refiller_client.new (config.base_url config) ;;
  try_except_finally
    (logger_info "🔐 Logging in to retrieve session cookie..." ;;
     cookie <- login w client (username config) (password config) (office config) ;;
     logger_info "🍪 Login successful, requesting medication refill..." ;;
     success <- request_refill w client cookie (med_id config) ;;
     if success : bool
     then logger_info "✅ Medication refill request successful!"
     else logger_error "❌ Medication refill request failed...")
    (fun e => logger_error ("Login failed: " +:+ exc_str w e) ;; ret tt)
    (close client).

End main.

(** ** Vocabulary of the properties *)

Import config.

(** A required field the document lacks, or holds with a false value. *)
Definition absent_or_falsy (doc : document) (field : string) : Prop :=
  doc !! field = None \/ exists v, doc !! field = Some v /\ truthy v = false.

Definition present_and_truthy (doc : document) (field : string) : Prop :=
  exists v, doc !! field = Some v /\ truthy v = true.

(** The message contains the field's name. *)
Definition names (msg field : string) : Prop :=
  exists pre post, msg = pre +:+ field +:+ post.

Definition missing_message (fields : list string) : string :=
  "Missing or empty required fields in config file: "
  +:+ String.concat ", " fields.

(** The request [login] sends, and the one [request_refill] sends. *)
Definition login_request (w : env) (self : refiller_client.RefillerClient)
    (username password office : value) : aiohttp.request :=
  {| aiohttp.url := py_str w (refiller_client.base_url self) +:+ "/login";
     aiohttp.data :=
       [("office", office); ("username", username); ("password", password)];
     aiohttp.headers :=
       [("Content-Type", "application/x-www-form-urlencoded")];
     aiohttp.allow_redirects := false |}.

Definition refill_request (w : env) (self : refiller_client.RefillerClient)
    (cookie : string) (med : value) : aiohttp.request :=
  {| aiohttp.url := py_str w (refiller_client.base_url self) +:+ "/msgs/newmsg";
     aiohttp.data :=
       [("meds", med); ("subject", TStr "R"); ("reply", TStr "");
        ("type", TStr "R"); ("msg", TStr "")];
     aiohttp.headers :=
       [("Content-Type", "application/x-www-form-urlencoded");
        ("Cookie", cookie)];
     aiohttp.allow_redirects := true |}.

(** What a call returns or raises, apart from the events it leaves. *)
Definition login_outcome (w : env) (self : refiller_client.RefillerClient)
    (username password office : value) : result string :=
  fst (refiller_client.login w self username password office []).

Definition refill_outcome (w : env) (self : refiller_client.RefillerClient)
    (cookie : string) (med : value) : result bool :=
  fst (refiller_client.request_refill w self cookie med []).

(** One run of the program from an empty trace. *)
Definition run (w : env) : result unit * list event := main.main w [].

Definition is_close (ev : event) : bool :=
  match ev with CallClose => true | _ => false end.

Definition is_network (ev : event) : bool :=
  match ev with
  | NewClient _ | CallLogin _ _ _ | CallRequestRefill _ _ | Post _ | CallClose => true
  | LogInfo _ | LogError _ => false
  end.

(** ** Sample documents and environments *)

Definition sample_document : document :=
  list_to_map
    [("username", TStr "u"); ("password", TStr "p");
     ("base_url", TStr "http://x"); ("med_id", TStr "aspirin");
     ("office", TStr "o1")].

(** What [sample_document] loads to. *)
Definition sample_config : config.Config :=
  {| config.username := TStr "u"; config.password := TStr "p";
     config.base_url := TStr "http://x"; config.med_id := TStr "aspirin";
     config.office := TStr "o1" |}.

(** [password] empty, [med_id] zero, [office] absent. *)
Definition incomplete_document : document :=
  list_to_map
    [("username", TStr "u"); ("password", TStr "");
     ("base_url", TStr "http://x"); ("med_id", TInt 0)].

(** No required field is a string ([office] is the float 1.5). *)
Definition untyped_document : document :=
  list_to_map
    [("username", TInt 7); ("password", TBool true);
     ("base_url", TArray [TInt 1]);
     ("med_id", TTable (list_to_map [("id", TInt 12)]));
     ("office", TFloat (S754_finite false 3 (-1)))].

(** An environment with one file at [CONFIG_PATH] and a service that gives
    one answer to the login request (sent with redirects disabled) and one
    to every other request. *)
Definition sample_env (file : option (result document))
    (login_answer refill_answer : result aiohttp.response) : env :=
  {| CONFIG_PATH := "config.toml";
     files := fun path => if String.eqb path "config.toml" then file else None;
     http_post := fun req =>
       if aiohttp.allow_redirects req then refill_answer else login_answer;
     str_value := fun _ => "<value>";
     str_ClientResponseError := fun st msg => msg |}.

Definition answer (status : Z) (reason : string)
    (headers : list (string * string)) : result aiohttp.response :=
  Ok {| aiohttp.status := status; aiohttp.reason := reason;
        aiohttp.resp_headers := headers |}.

Definition sample_client : refiller_client.RefillerClient :=
  {| refiller_client.base_url := TStr "http://x" |}.

(** A service that answers the login with a redirect that sets a cookie. *)
Definition found_response : aiohttp.response :=
  {| aiohttp.status := 302; aiohttp.reason := "Found";
     aiohttp.resp_headers := [("Location", "/home"); ("Set-Cookie", "s=1")] |}.

Definition redirect_env : env :=
  sample_env None (Ok found_response) (answer 200 "OK" []).

(** The end-to-end scenario: the login sets a cookie, the refill is
    answered 200. *)
Definition happy_env : env :=
  sample_env (Some (Ok sample_document))
    (answer 200 "OK" [("Set-Cookie", "s=1")]) (answer 200 "OK" []).

(** The host cannot be reached at the login. *)
Definition unreachable_env : env :=
  sample_env (Some (Ok sample_document))
    (Raise (OtherException "ClientConnectorError" "Cannot connect to host x"))
    (answer 200 "OK" []).

(** The login succeeds, the refill is answered 500. *)
Definition refill_500_env : env :=
  sample_env (Some (Ok sample_document))
    (answer 200 "OK" [("Set-Cookie", "s=1")])
    (answer 500 "Internal Server Error" []).

(** No file at [CONFIG_PATH]. *)
Definition no_file_env : env :=
  sample_env None (answer 200 "OK" [("Set-Cookie", "s=1")]) (answer 200 "OK" []).

(** ** Counting the events of a run *)

Definition is_post (ev : event) : bool :=
  match ev with Post _ => true | _ => false end.




Definition count (p : event -> bool) (t : list event) : nat :=
  length (List.filter p t).

(** ** Further sample documents and environments *)

(** Every field a string of blanks. *)
Definition blank_document : document :=
  list_to_map
    [("username", TStr " "); ("password", TStr " ");
     ("base_url", TStr " "); ("med_id", TStr " "); ("office", TStr " ")].

(** The file at [CONFIG_PATH] is not TOML. *)
Definition malformed_env : env :=
  sample_env (Some (Raise (TOMLDecodeError "Invalid value (at line 2, column 24)")))
    (answer 200 "OK" [("Set-Cookie", "s=1")]) (answer 200 "OK" []).

(** The login is answered 200 without a cookie. *)
Definition no_cookie_env : env :=
  sample_env (Some (Ok sample_document)) (answer 200 "OK" []) (answer 200 "OK" []).

(** The login succeeds, the refill is answered 201. *)
Definition refill_201_env : env :=
  sample_env (Some (Ok sample_document))
    (answer 200 "OK" [("Set-Cookie", "s=1")]) (answer 201 "Created" []).

(** The login succeeds, the refill cannot connect. *)
Definition refill_unreachable_env : env :=
  sample_env (Some (Ok sample_document))
    (answer 200 "OK" [("Set-Cookie", "s=1")])
    (Raise (OtherException "ServerDisconnectedError" "Server disconnected")).

(** ** A service behind the session *)

(** The environment in which [ClientSession.post] is the session's request
    loop over a transport. *)
Definition service_env (file : option (result document))
    (tr : aiohttp.transport) : env :=
  {| CONFIG_PATH := "config.toml";
     files := fun path => if String.eqb path "config.toml" then file else None;
     http_post := aiohttp.session_post tr;
     str_value := fun _ => "<value>";
     str_ClientResponseError := fun st msg => msg |}.

Definition moved_response : aiohttp.response :=
  {| aiohttp.status := 301; aiohttp.reason := "Moved Permanently";
     aiohttp.resp_headers := [("Location", "http://x/done")] |}.

(** A service that sets a cookie at the login, answers every other POST
    with a 301 to [http://x/done], and answers a GET with 200. *)
Definition moved_transport : aiohttp.transport :=
  {| aiohttp.send := fun rq =>
       match aiohttp.w_method rq with
       | aiohttp.POST =>
           if String.eqb (aiohttp.w_url rq) "http://x/login"
           then answer 200 "OK" [("Set-Cookie", "s=1")]
           else Ok moved_response
       | aiohttp.GET => answer 200 "OK" []
       end;
     aiohttp.next_target := fun rq m r_url => Ok (r_url, aiohttp.w_headers rq);
     aiohttp.too_many_redirects :=
       OtherException "TooManyRedirects" "too many redirects" |}.

Definition moved_env : env :=
  service_env (Some (Ok sample_document)) moved_transport.

(** * Properties *)

(** ** Strings *)

Lemma append_nil_r (s : string) : s +:+ "" = s.
Proof.
  induction s as [|c s IH]; [reflexivity|].
  unfold String.append; fold String.append. now rewrite IH.
Qed.

Lemma append_assoc (a b c : string) : (a +:+ b) +:+ c = a +:+ b +:+ c.
Proof.
  induction a as [|x a IH]; [reflexivity|].
  unfold String.append; fold String.append. now rewrite IH.
Qed.

Lemma names_here (pre field post : string) : names (pre +:+ field +:+ post) field.
Proof. now exists pre, post. Qed.

Lemma names_prefix (p msg field : string) : names msg field -> names (p +:+ msg) field.
Proof.
  intros (pre & post & ->). exists (p +:+ pre), post.
  now rewrite append_assoc.
Qed.

Lemma names_concat (sep field : string) (l : list string) :
  In field l -> names (String.concat sep l) field.
Proof.
  induction l as [|x xs IH]; [intros []|].
  intros [->|Hin].
  - destruct xs as [|y ys].
    + exists "", "". cbn [String.concat]. now rewrite append_nil_r.
    + exists "", (sep +:+ String.concat sep (y :: ys)). reflexivity.
  - destruct xs as [|y ys]; [destruct Hin|].
    change (String.concat sep (x :: y :: ys))
      with (x +:+ sep +:+ String.concat sep (y :: ys)).
    apply names_prefix, names_prefix, IH, Hin.
Qed.

(** ** Configuration loading *)

Lemma missing_or_empty_true (doc : document) (field : string) :
  missing_or_empty doc field = true <-> absent_or_falsy doc field.
Proof.
  unfold missing_or_empty, absent_or_falsy.
  destruct (doc !! field) as [v|] eqn:E.
  - rewrite Bool.negb_true_iff. split.
    + intros Hv. right. now exists v.
    + intros [Habs|(v' & Hv' & Hf)]; [discriminate|congruence].
  - split; [now left|reflexivity].
Qed.

Lemma missing_or_empty_false (doc : document) (field : string) :
  missing_or_empty doc field = false <-> present_and_truthy doc field.
Proof.
  unfold missing_or_empty, present_and_truthy.
  destruct (doc !! field) as [v|] eqn:E.
  - rewrite Bool.negb_false_iff. split.
    + intros Hv. now exists v.
    + intros (v' & Hv' & Ht). congruence.
  - split; [discriminate|intros (v & Hv & _); discriminate].
Qed.

Example falsy_values :
  truthy (TStr "") = false /\ truthy (TInt 0) = false
  /\ truthy (TFloat (S754_zero true)) = false /\ truthy (TBool false) = false
  /\ truthy (TArray []) = false /\ truthy (TTable ∅) = false.
Proof. repeat split. Qed.

Example truthy_values_that_are_not_strings :
  truthy (TInt 7) = true /\ truthy (TBool true) = true
  /\ truthy (TArray [TInt 1]) = true
  /\ truthy (TTable (list_to_map [("id", TInt 12)])) = true
  /\ truthy (TFloat S754_nan) = true /\ truthy (TDate "1979-05-27") = true.
Proof. repeat split. Qed.

(** With an offending field the load raises the aggregated [ValueError],
    whose list is the required fields that offend, in declaration order. *)
Lemma from_toml_incomplete (w : env) (path : string) (doc : document) (field : string) :
  files w path = Some (Ok doc) ->
  In field required_fields ->
  missing_or_empty doc field = true ->
  from_toml w path =
    Raise (ValueError
      (missing_message (List.filter (missing_or_empty doc) required_fields)))
  /\ In field (List.filter (missing_or_empty doc) required_fields).
Proof.
  intros Hfile Hin Hmiss.
  assert (Hf : In field (List.filter (missing_or_empty doc) required_fields))
    by (apply filter_In; auto).
  split; [|exact Hf].
  unfold from_toml. rewrite Hfile. cbn [rbind].
  destruct (List.filter (missing_or_empty doc) required_fields) as [|x xs];
    [destruct Hf|reflexivity].
Qed.

(** With the five fields present and true the load returns them as they
    are, whatever their TOML type. *)
Lemma from_toml_complete (w : env) (path : string) (doc : document)
    (v1 v2 v3 v4 v5 : value) :
  files w path = Some (Ok doc) ->
  doc !! "username" = Some v1 -> truthy v1 = true ->
  doc !! "password" = Some v2 -> truthy v2 = true ->
  doc !! "base_url" = Some v3 -> truthy v3 = true ->
  doc !! "med_id" = Some v4 -> truthy v4 = true ->
  doc !! "office" = Some v5 -> truthy v5 = true ->
  from_toml w path =
    Ok {| username := v1; password := v2; base_url := v3;
          med_id := v4; office := v5 |}.
Proof.
  intros Hfile H1 T1 H2 T2 H3 T3 H4 T4 H5 T5.
  unfold from_toml. rewrite Hfile. cbn [rbind].
  unfold required_fields, getitem. cbn [List.filter].
  unfold missing_or_empty.
  rewrite H1, H2, H3, H4, H5, T1, T2, T3, T4, T5.
  reflexivity.
Qed.

(** C7: a document in which one or more of the five required fields is
    absent or holds a false value fails to load, with a [ValueError] whose
    message lists every such field; a document in which the five fields are
    present and true loads, and the [Config] holds the five values as the
    document gives them. *)
Theorem from_toml_names_every_offending_field_and_round_trips
    (w : env) (path : string) (doc : document) :
  files w path = Some (Ok doc) ->
  ((exists field, In field required_fields /\ absent_or_falsy doc field) ->
   exists msg,
     from_toml w path = Raise (ValueError msg) /\
     msg = missing_message (List.filter (missing_or_empty doc) required_fields) /\
     forall field,
       In field required_fields -> absent_or_falsy doc field -> names msg field)
  /\
  ((forall field, In field required_fields -> present_and_truthy doc field) ->
   exists c,
     from_toml w path = Ok c /\
     doc !! "username" = Some (username c) /\
     doc !! "password" = Some (password c) /\
     doc !! "base_url" = Some (base_url c) /\
     doc !! "med_id" = Some (med_id c) /\
     doc !! "office" = Some (office c)).
Proof.
  intros Hfile. split.
  - intros (f0 & Hin0 & Hbad0).
    apply missing_or_empty_true in Hbad0.
    destruct (from_toml_incomplete w path doc f0 Hfile Hin0 Hbad0) as [Hraise _].
    eexists. split; [exact Hraise|]. split; [reflexivity|].
    intros f Hin Hbad. apply missing_or_empty_true in Hbad.
    destruct (from_toml_incomplete w path doc f Hfile Hin Hbad) as [_ Hf].
    apply names_prefix, names_concat, Hf.
  - intros Hall.
    assert (Hget : forall field, In field required_fields ->
              exists v, doc !! field = Some v /\ truthy v = true)
      by exact Hall.
    destruct (Hget "username") as (v1 & H1 & T1); [cbn; tauto|].
    destruct (Hget "password") as (v2 & H2 & T2); [cbn; tauto|].
    destruct (Hget "base_url") as (v3 & H3 & T3); [cbn; tauto|].
    destruct (Hget "med_id") as (v4 & H4 & T4); [cbn; tauto|].
    destruct (Hget "office") as (v5 & H5 & T5); [cbn; tauto|].
    eexists. split.
    + eapply from_toml_complete; eassumption.
    + cbn. auto.
Qed.

Lemma from_toml_names_every_offending_field_and_round_trips_witness :
  (exists msg,
     from_toml (sample_env (Some (Ok incomplete_document)) (answer 200 "OK" []) (answer 200 "OK" []))
       "config.toml" = Raise (ValueError msg) /\
     msg = "Missing or empty required fields in config file: password, med_id, office")
  /\
  (exists c,
     from_toml (sample_env (Some (Ok sample_document)) (answer 200 "OK" []) (answer 200 "OK" []))
       "config.toml" = Ok c /\
     username c = TStr "u" /\ med_id c = TStr "aspirin").
Proof.
  split.
  - destruct (from_toml_names_every_offending_field_and_round_trips
                (sample_env (Some (Ok incomplete_document)) (answer 200 "OK" []) (answer 200 "OK" []))
                "config.toml" incomplete_document eq_refl) as [Hbad _].
    destruct Hbad as (msg & Hraise & Hmsg & _).
    + exists "office". split; [cbn; tauto|]. left. vm_compute. reflexivity.
    + exists msg. split; [exact Hraise|]. rewrite Hmsg. vm_compute. reflexivity.
  - destruct (from_toml_names_every_offending_field_and_round_trips
                (sample_env (Some (Ok sample_document)) (answer 200 "OK" []) (answer 200 "OK" []))
                "config.toml" sample_document eq_refl) as [_ Hgood].
    destruct Hgood as (c & Hok & Hu & _ & _ & Hm & _).
    + intros f [<-|[<-|[<-|[<-|[<-|[]]]]]]; eexists; split; vm_compute; reflexivity.
    + exists c. split; [exact Hok|].
      split.
      * assert (E : Some (username c) = Some (TStr "u")) by (rewrite <- Hu; vm_compute; reflexivity).
        now injection E.
      * assert (E : Some (med_id c) = Some (TStr "aspirin")) by (rewrite <- Hm; vm_compute; reflexivity).
        now injection E.
Defined.

(** A false value under a key and no value under it are one case for
    [missing_or_empty], at every field. *)
Lemma missing_or_empty_delete (doc : document) (field : string) (v : value) :
  doc !! field = Some v -> truthy v = false ->
  forall g, missing_or_empty (delete field doc) g = missing_or_empty doc g.
Proof.
  intros Hv Hf g. unfold missing_or_empty.
  destruct (decide (field = g)) as [<-|Hne].
  - rewrite lookup_delete_eq, Hv, Hf. reflexivity.
  - rewrite lookup_delete_ne by exact Hne. reflexivity.
Qed.

Lemma filter_ext_all {A} (f g : A -> bool) (l : list A) :
  (forall x, f x = g x) -> List.filter f l = List.filter g l.
Proof.
  intros E. induction l as [|x l IH]; [reflexivity|].
  cbn [List.filter]. now rewrite E, IH.
Qed.

(** C10: [from_toml] checks truth, not type.  Five present, true values of
    any TOML type load and are stored unchanged; a false value under a
    required field gives the very result of the document without that
    key, the missing-or-empty error that lists the field. *)
Theorem from_toml_checks_truth_not_type
    (w : env) (path : string) (doc : document) :
  files w path = Some (Ok doc) ->
  (forall v1 v2 v3 v4 v5 : value,
     doc !! "username" = Some v1 -> truthy v1 = true ->
     doc !! "password" = Some v2 -> truthy v2 = true ->
     doc !! "base_url" = Some v3 -> truthy v3 = true ->
     doc !! "med_id" = Some v4 -> truthy v4 = true ->
     doc !! "office" = Some v5 -> truthy v5 = true ->
     from_toml w path =
       Ok {| username := v1; password := v2; base_url := v3;
             med_id := v4; office := v5 |})
  /\
  (forall (field : string) (v : value) (w' : env),
     In field required_fields ->
     doc !! field = Some v -> truthy v = false ->
     files w' path = Some (Ok (delete field doc)) ->
     from_toml w path = from_toml w' path /\
     exists msg, from_toml w path = Raise (ValueError msg) /\ names msg field).
Proof.
  intros Hfile. split.
  - intros v1 v2 v3 v4 v5. now apply from_toml_complete.
  - intros field v w' Hin Hv Hf Hfile'.
    assert (Hmiss : missing_or_empty doc field = true)
      by (apply missing_or_empty_true; right; now exists v).
    assert (Hmiss' : missing_or_empty (delete field doc) field = true)
      by (now rewrite (missing_or_empty_delete doc field v Hv Hf)).
    destruct (from_toml_incomplete w path doc field Hfile Hin Hmiss) as [Hr Hl].
    destruct (from_toml_incomplete w' path _ field Hfile' Hin Hmiss') as [Hr' _].
    split.
    + rewrite Hr, Hr'. do 3 f_equal.
      apply filter_ext_all. intros g. symmetry.
      now apply (missing_or_empty_delete doc field v).
    + eexists. split; [exact Hr|].
      apply names_prefix, names_concat, Hl.
Qed.

Lemma from_toml_checks_truth_not_type_witness :
  from_toml (sample_env (Some (Ok untyped_document)) (answer 200 "OK" []) (answer 200 "OK" []))
    "config.toml" =
    Ok {| username := TInt 7; password := TBool true;
          base_url := TArray [TInt 1];
          med_id := TTable (list_to_map [("id", TInt 12)]);
          office := TFloat (S754_finite false 3 (-1)) |}
  /\
  from_toml (sample_env (Some (Ok incomplete_document)) (answer 200 "OK" []) (answer 200 "OK" []))
    "config.toml" =
  from_toml (sample_env (Some (Ok (delete "med_id" incomplete_document)))
               (answer 200 "OK" []) (answer 200 "OK" []))
    "config.toml".
Proof.
  split.
  - apply (from_toml_checks_truth_not_type
             (sample_env (Some (Ok untyped_document)) (answer 200 "OK" []) (answer 200 "OK" []))
             "config.toml" untyped_document eq_refl);
      vm_compute; reflexivity.
  - destruct (from_toml_checks_truth_not_type
                (sample_env (Some (Ok incomplete_document)) (answer 200 "OK" []) (answer 200 "OK" []))
                "config.toml" incomplete_document eq_refl) as [_ Hfalsy].
    destruct (Hfalsy "med_id" (TInt 0)
                (sample_env (Some (Ok (delete "med_id" incomplete_document)))
                   (answer 200 "OK" []) (answer 200 "OK" []))) as [Heq _].
    + cbn; tauto.
    + vm_compute; reflexivity.
    + reflexivity.
    + reflexivity.
    + exact Heq.
Defined.

(** ** The client *)

Import refiller_client.

Ltac unfold_M :=
  cbv beta iota zeta delta
    [bind post emit lift ret raise logger_info logger_error].

(** [login] leaves two events, the call and its POST, whatever comes back;
    what it returns does not depend on the events before it. *)
Lemma login_run (w : env) (self : RefillerClient) (u p o : value) (t : list event) :
  login w self u p o t =
    (login_outcome w self u p o,
     (t ++ [CallLogin u p o; Post (login_request w self u p o)])%list).
Proof.
  unfold login_outcome, login. unfold_M. fold (login_request w self u p o).
  cbn [app]. rewrite <- app_assoc. cbn [app].
  destruct (http_post w (login_request w self u p o)) as [resp|e]; [|reflexivity].
  destruct (aiohttp.raise_for_status resp) as [[]|e]; [|reflexivity].
  destruct (aiohttp.headers_get "Set-Cookie" (aiohttp.resp_headers resp)) as [c|];
    [|reflexivity].
  destruct (String.eqb c ""); reflexivity.
Qed.

Lemma login_outcome_eq (w : env) (self : RefillerClient) (u p o : value) :
  login_outcome w self u p o =
    match http_post w (login_request w self u p o) with
    | Raise e => Raise e
    | Ok resp =>
        if (400 <=? aiohttp.status resp)%Z
        then Raise (ClientResponseError (aiohttp.status resp) (aiohttp.reason resp))
        else
          match aiohttp.headers_get "Set-Cookie" (aiohttp.resp_headers resp) with
          | None => Raise (ValueError "Login failed: No session cookie received")
          | Some c =>
              if String.eqb c ""
              then Raise (ValueError "Login failed: No session cookie received")
              else Ok c
          end
    end.
Proof.
  unfold login_outcome, login. unfold_M. fold (login_request w self u p o).
  cbn [app fst].
  destruct (http_post w (login_request w self u p o)) as [resp|e]; [|reflexivity].
  unfold aiohttp.raise_for_status, aiohttp.ok.
  rewrite Z.ltb_antisym, Bool.negb_involutive.
  destruct (400 <=? aiohttp.status resp)%Z; [reflexivity|]. cbn [fst].
  destruct (aiohttp.headers_get "Set-Cookie" (aiohttp.resp_headers resp)) as [c|];
    [|reflexivity].
  destruct (String.eqb c ""); reflexivity.
Qed.

Lemma request_refill_run (w : env) (self : RefillerClient)
    (cookie : string) (med : value) (t : list event) :
  request_refill w self cookie med t =
    (refill_outcome w self cookie med,
     (t ++ [CallRequestRefill cookie med;
            Post (refill_request w self cookie med)])%list).
Proof.
  unfold refill_outcome, request_refill. unfold_M.
  fold (refill_request w self cookie med).
  cbn [app]. rewrite <- app_assoc. cbn [app].
  destruct (http_post w (refill_request w self cookie med)) as [resp|e]; [|reflexivity].
  destruct (aiohttp.raise_for_status resp) as [[]|e]; reflexivity.
Qed.

Lemma refill_outcome_eq (w : env) (self : RefillerClient)
    (cookie : string) (med : value) :
  refill_outcome w self cookie med =
    match http_post w (refill_request w self cookie med) with
    | Raise e => Raise e
    | Ok resp =>
        if (400 <=? aiohttp.status resp)%Z
        then Raise (ClientResponseError (aiohttp.status resp) (aiohttp.reason resp))
        else Ok (aiohttp.status resp =? 200)%Z
    end.
Proof.
  unfold refill_outcome, request_refill. unfold_M.
  fold (refill_request w self cookie med). cbn [app fst].
  destruct (http_post w (refill_request w self cookie med)) as [resp|e]; [|reflexivity].
  unfold aiohttp.raise_for_status, aiohttp.ok.
  rewrite Z.ltb_antisym, Bool.negb_involutive.
  destruct (400 <=? aiohttp.status resp)%Z; reflexivity.
Qed.

(** C1, as amended: [request_refill] goes by the response that
    [ClientSession.post] hands back for the refill POST, which is the
    service's answer or, when that answer is a redirect the session
    follows, the answer to the last request made.  When that response has a
    status of 400 or more, [request_refill] raises the HTTP error of that
    status; below 400 it returns [true] exactly when the status is 200 and
    [false] at every other status (201, a 301 that is not followed, ...). *)
Theorem request_refill_true_only_on_200
    (w : env) (self : RefillerClient) (cookie : string) (med : value)
    (t : list event) (resp : aiohttp.response) :
  http_post w (refill_request w self cookie med) = Ok resp ->
  ((400 <= aiohttp.status resp)%Z ->
     fst (request_refill w self cookie med t) =
       Raise (HttpError (aiohttp.status resp) (aiohttp.reason resp)))
  /\
  ((aiohttp.status resp < 400)%Z ->
     (fst (request_refill w self cookie med t) = Ok true
        <-> aiohttp.status resp = 200%Z)
     /\
     (aiohttp.status resp <> 200%Z ->
        fst (request_refill w self cookie med t) = Ok false)).
Proof.
  intros Hpost. rewrite request_refill_run. cbn [fst].
  rewrite refill_outcome_eq, Hpost. split.
  - intros Hge. apply Z.leb_le in Hge. now rewrite Hge.
  - intros Hlt. apply Z.leb_gt in Hlt. rewrite Hlt. split.
    + split.
      * intros E. injection E as E. now apply Z.eqb_eq.
      * intros ->. reflexivity.
    + intros Hne. apply Z.eqb_neq in Hne. now rewrite Hne.
Qed.

Lemma request_refill_true_only_on_200_witness :
  fst (request_refill
         (sample_env None (answer 200 "OK" []) (answer 200 "OK" []))
         sample_client "s=1" (TStr "aspirin") []) = Ok true
  /\
  fst (request_refill
         (sample_env None (answer 200 "OK" []) (answer 201 "Created" []))
         sample_client "s=1" (TStr "aspirin") []) = Ok false
  /\
  fst (request_refill
         (sample_env None (answer 200 "OK" []) (answer 301 "Moved Permanently" []))
         sample_client "s=1" (TStr "aspirin") []) = Ok false
  /\
  fst (request_refill
         (sample_env None (answer 200 "OK" []) (answer 404 "Not Found" []))
         sample_client "s=1" (TStr "aspirin") []) = Raise (HttpError 404 "Not Found").
Proof.
  split; [|split; [|split]].
  - apply (request_refill_true_only_on_200
             (sample_env None (answer 200 "OK" []) (answer 200 "OK" []))
             sample_client "s=1" (TStr "aspirin") [] _ eq_refl);
      [cbn; lia | reflexivity].
  - apply (request_refill_true_only_on_200
             (sample_env None (answer 200 "OK" []) (answer 201 "Created" []))
             sample_client "s=1" (TStr "aspirin") [] _ eq_refl);
      cbn; lia.
  - apply (request_refill_true_only_on_200
             (sample_env None (answer 200 "OK" []) (answer 301 "Moved Permanently" []))
             sample_client "s=1" (TStr "aspirin") [] _ eq_refl);
      cbn; lia.
  - apply (request_refill_true_only_on_200
             (sample_env None (answer 200 "OK" []) (answer 404 "Not Found" []))
             sample_client "s=1" (TStr "aspirin") [] _ eq_refl).
    cbn; lia.
Defined.

(** C2, as amended: when the login POST is answered with a status of 400 or
    more, [login] raises the HTTP error carrying that status and reason,
    and so returns no cookie; at a status below 400, a redirect included,
    it raises no HTTP error. *)
Theorem login_http_error_from_400
    (w : env) (self : RefillerClient) (u p o : value)
    (t : list event) (resp : aiohttp.response) :
  http_post w (login_request w self u p o) = Ok resp ->
  ((400 <= aiohttp.status resp)%Z ->
     fst (login w self u p o t) =
       Raise (HttpError (aiohttp.status resp) (aiohttp.reason resp)))
  /\
  ((aiohttp.status resp < 400)%Z ->
     forall st rs, fst (login w self u p o t) <> Raise (HttpError st rs)).
Proof.
  intros Hpost. rewrite login_run. cbn [fst].
  rewrite login_outcome_eq, Hpost. split.
  - intros Hge. apply Z.leb_le in Hge. now rewrite Hge.
  - intros Hlt st rs. apply Z.leb_gt in Hlt. rewrite Hlt.
    destruct (aiohttp.headers_get "Set-Cookie" (aiohttp.resp_headers resp)) as [c|];
      [|discriminate].
    destruct (String.eqb c ""); discriminate.
Qed.

Lemma login_http_error_from_400_witness :
  fst (login
         (sample_env None (answer 401 "Unauthorized" [("Set-Cookie", "s=1")])
            (answer 200 "OK" []))
         sample_client (TStr "u") (TStr "wrong") (TStr "o1") []) =
    Raise (HttpError 401 "Unauthorized")
  /\
  (forall st rs,
     fst (login redirect_env sample_client (TStr "u") (TStr "p") (TStr "o1") [])
       <> Raise (HttpError st rs)).
Proof.
  split.
  - apply (login_http_error_from_400
             (sample_env None (answer 401 "Unauthorized" [("Set-Cookie", "s=1")])
                (answer 200 "OK" []))
             sample_client (TStr "u") (TStr "wrong") (TStr "o1") [] _ eq_refl).
    cbn; lia.
  - apply (login_http_error_from_400 redirect_env
             sample_client (TStr "u") (TStr "p") (TStr "o1") [] _ eq_refl).
    cbn; lia.
Defined.

(** C2, as stated, fails at a redirect: a 302 answer is outside the 2xx
    range, yet [login] raises nothing and returns the cookie of the
    answer. *)
Lemma login_redirect_returns_cookie :
  http_post redirect_env
      (login_request redirect_env sample_client (TStr "u") (TStr "p") (TStr "o1"))
    = Ok found_response
  /\ ~ (200 <= aiohttp.status found_response < 300)%Z
  /\ fst (login redirect_env sample_client (TStr "u") (TStr "p") (TStr "o1") [])
       = Ok "s=1"
  /\ fst (login redirect_env sample_client (TStr "u") (TStr "p") (TStr "o1") [])
       <> Raise (HttpError (aiohttp.status found_response)
                   (aiohttp.reason found_response)).
Proof.
  split; [reflexivity|]. split; [cbn; lia|].
  split; [reflexivity|]. vm_compute. discriminate.
Qed.

(** C5: when the login POST is answered with a status below 400 and the
    answer has no [Set-Cookie] header, or an empty one, [login] raises the
    authentication error (a [ValueError]) with the text
    ["Login failed: No session cookie received"], which reads
    "no session cookie received" when case is set aside. *)
Theorem login_without_cookie_raises
    (w : env) (self : RefillerClient) (u p o : value)
    (t : list event) (resp : aiohttp.response) :
  http_post w (login_request w self u p o) = Ok resp ->
  (aiohttp.status resp < 400)%Z ->
  aiohttp.headers_get "Set-Cookie" (aiohttp.resp_headers resp) = None
  \/ aiohttp.headers_get "Set-Cookie" (aiohttp.resp_headers resp) = Some "" ->
  exists msg,
    fst (login w self u p o t) = Raise (AuthenticationError msg)
    /\ msg = "Login failed: No session cookie received"
    /\ names (lower msg) "no session cookie received".
Proof.
  intros Hpost Hlt Hcookie.
  exists "Login failed: No session cookie received".
  split; [|split; [reflexivity|]].
  - rewrite login_run. cbn [fst]. rewrite login_outcome_eq, Hpost.
    apply Z.leb_gt in Hlt. rewrite Hlt.
    destruct Hcookie as [-> | ->]; reflexivity.
  - exists "login failed: ", "". reflexivity.
Qed.

Lemma login_without_cookie_raises_witness :
  (exists msg,
     fst (login (sample_env None (answer 200 "OK" []) (answer 200 "OK" []))
            sample_client (TStr "u") (TStr "p") (TStr "o1") [])
       = Raise (AuthenticationError msg)
     /\ msg = "Login failed: No session cookie received"
     /\ names (lower msg) "no session cookie received")
  /\
  (exists msg,
     fst (login (sample_env None (answer 200 "OK" [("set-cookie", "")])
                   (answer 200 "OK" []))
            sample_client (TStr "u") (TStr "p") (TStr "o1") [])
       = Raise (AuthenticationError msg)
     /\ msg = "Login failed: No session cookie received"
     /\ names (lower msg) "no session cookie received").
Proof.
  split.
  - apply (login_without_cookie_raises
             (sample_env None (answer 200 "OK" []) (answer 200 "OK" []))
             sample_client (TStr "u") (TStr "p") (TStr "o1") [] _ eq_refl).
    + cbn; lia.
    + left. reflexivity.
  - apply (login_without_cookie_raises
             (sample_env None (answer 200 "OK" [("set-cookie", "")])
                (answer 200 "OK" []))
             sample_client (TStr "u") (TStr "p") (TStr "o1") [] _ eq_refl).
    + cbn; lia.
    + right. reflexivity.
Defined.

(** C6: when the login POST is answered with a 2xx status and a non-empty
    [Set-Cookie] header, [login] returns the value of that header as it
    is. *)
Theorem login_returns_cookie_verbatim
    (w : env) (self : RefillerClient) (u p o : value)
    (t : list event) (resp : aiohttp.response) (c : string) :
  http_post w (login_request w self u p o) = Ok resp ->
  (200 <= aiohttp.status resp < 300)%Z ->
  aiohttp.headers_get "Set-Cookie" (aiohttp.resp_headers resp) = Some c ->
  c <> "" ->
  fst (login w self u p o t) = Ok c.
Proof.
  intros Hpost [_ Hlt] Hcookie Hne.
  rewrite login_run. cbn [fst]. rewrite login_outcome_eq, Hpost.
  assert (Hs : (400 <=? aiohttp.status resp)%Z = false) by (apply Z.leb_gt; lia).
  rewrite Hs, Hcookie.
  apply String.eqb_neq in Hne. now rewrite Hne.
Qed.

Lemma login_returns_cookie_verbatim_witness :
  fst (login
         (sample_env None (answer 200 "OK" [("Set-Cookie", "session_id=abc123")])
            (answer 200 "OK" []))
         sample_client (TStr "user") (TStr "pass") (TStr "office1") [])
    = Ok "session_id=abc123".
Proof.
  apply (login_returns_cookie_verbatim
           (sample_env None (answer 200 "OK" [("Set-Cookie", "session_id=abc123")])
              (answer 200 "OK" []))
           sample_client (TStr "user") (TStr "pass") (TStr "office1") [] _
           "session_id=abc123" eq_refl).
  - cbn; lia.
  - reflexivity.
  - discriminate.
Defined.

(** ** The orchestrator *)

Import main.

(** The whole of a run, path by path. *)
Lemma run_eq (w : env) :
  run w =
    match from_toml w (CONFIG_PATH w) with
    | Raise e => (Raise e, [LogInfo "💊 Starting refiller service..."])
    | Ok cfg =>
        let client := {| refiller_client.base_url := config.base_url cfg |} in
        let t1 :=
          [LogInfo "💊 Starting refiller service...";
           NewClient (config.base_url cfg);
           LogInfo "🔐 Logging in to retrieve session cookie...";
           CallLogin (username cfg) (password cfg) (office cfg);
           Post (login_request w client (username cfg) (password cfg) (office cfg))] in
        match login_outcome w client (username cfg) (password cfg) (office cfg) with
        | Raise e =>
            (Ok tt,
             (t1 ++ [LogError ("Login failed: " +:+ exc_str w e); CallClose])%list)
        | Ok cookie =>
            let t2 :=
              (t1 ++
               [LogInfo "🍪 Login successful, requesting medication refill...";
                CallRequestRefill cookie (med_id cfg);
                Post (refill_request w client cookie (med_id cfg))])%list in
            match refill_outcome w client cookie (med_id cfg) with
            | Raise e =>
                (Ok tt,
                 (t2 ++ [LogError ("Login failed: " +:+ exc_str w e); CallClose])%list)
            | Ok true =>
                (Ok tt,
                 (t2 ++ [LogInfo "✅ Medication refill request successful!";
                         CallClose])%list)
            | Ok false =>
                (Ok tt,
                 (t2 ++ [LogError "❌ Medication refill request failed...";
                         CallClose])%list)
            end
        end
    end.
Proof.
  unfold run, main.main, try_except_finally, refiller_client.new, close.
  unfold_M. cbn [app].
  destruct (from_toml w (CONFIG_PATH w)) as [cfg|e]; [|reflexivity].
  rewrite login_run. cbn [app].
  destruct (login_outcome w _ (username cfg) (password cfg) (office cfg))
    as [cookie|e]; [|reflexivity].
  rewrite request_refill_run. cbn [app].
  destruct (refill_outcome w _ cookie (med_id cfg)) as [[|]|e]; reflexivity.
Qed.

(** The end-to-end scenario: a success line and one [close]. *)
Example run_happy :
  run happy_env =
    (Ok tt,
     [LogInfo "💊 Starting refiller service...";
      NewClient (TStr "http://x");
      LogInfo "🔐 Logging in to retrieve session cookie...";
      CallLogin (TStr "u") (TStr "p") (TStr "o1");
      Post {| aiohttp.url := "http://x/login";
              aiohttp.data :=
                [("office", TStr "o1"); ("username", TStr "u");
                 ("password", TStr "p")];
              aiohttp.headers :=
                [("Content-Type", "application/x-www-form-urlencoded")];
              aiohttp.allow_redirects := false |};
      LogInfo "🍪 Login successful, requesting medication refill...";
      CallRequestRefill "s=1" (TStr "aspirin");
      Post {| aiohttp.url := "http://x/msgs/newmsg";
              aiohttp.data :=
                [("meds", TStr "aspirin"); ("subject", TStr "R");
                 ("reply", TStr ""); ("type", TStr "R"); ("msg", TStr "")];
              aiohttp.headers :=
                [("Content-Type", "application/x-www-form-urlencoded");
                 ("Cookie", "s=1")];
              aiohttp.allow_redirects := true |};
      LogInfo "✅ Medication refill request successful!";
      CallClose]).
Proof. vm_compute. reflexivity. Qed.

(** The login cannot connect: no refill, a failure line, one [close]. *)
Example run_unreachable :
  run unreachable_env =
    (Ok tt,
     [LogInfo "💊 Starting refiller service...";
      NewClient (TStr "http://x");
      LogInfo "🔐 Logging in to retrieve session cookie...";
      CallLogin (TStr "u") (TStr "p") (TStr "o1");
      Post (login_request unreachable_env sample_client
              (TStr "u") (TStr "p") (TStr "o1"));
      LogError "Login failed: Cannot connect to host x";
      CallClose]).
Proof. vm_compute. reflexivity. Qed.

Lemma login_outcome_nonempty (w : env) (self : RefillerClient) (u p o : value)
    (cookie : string) :
  login_outcome w self u p o = Ok cookie -> cookie <> "".
Proof.
  rewrite login_outcome_eq.
  destruct (http_post w (login_request w self u p o)) as [resp|e]; [|discriminate].
  destruct (400 <=? aiohttp.status resp)%Z; [discriminate|].
  destruct (aiohttp.headers_get "Set-Cookie" (aiohttp.resp_headers resp)) as [c|];
    [|discriminate].
  destruct (String.eqb c "") eqn:E; [discriminate|].
  intros [= <-]. now apply String.eqb_neq.
Qed.

(** Where an event sits in a trace that begins with a known event. *)
Lemma cons_eq_app_cons {A} (x y : A) (l pre post : list A) :
  x :: l = (pre ++ y :: post)%list ->
  (pre = [] /\ x = y /\ l = post)
  \/ exists pre', pre = x :: pre' /\ l = (pre' ++ y :: post)%list.
Proof.
  destruct pre as [|z pre']; cbn; intros [= -> ->].
  - now left.
  - right. now exists pre'.
Qed.

Lemma nil_eq_app_cons {A} (y : A) (pre post : list A) :
  [] = (pre ++ y :: post)%list -> False.
Proof. destruct pre; discriminate. Qed.

(** Walk down a concrete trace looking for the event of [H]; the positions
    where the event cannot be are closed, the others are left. *)
Ltac locate H :=
  repeat (
    first
      [ apply nil_eq_app_cons in H; destruct H
      | let E := fresh "E" in
        let pre' := fresh "pre" in
        apply cons_eq_app_cons in H as [(-> & E & <-) | (pre' & -> & H)];
        [ try discriminate E | ] ]).

(** C3: in a run, [request_refill] is called only after [login] was called
    and returned a cookie, the cookie is not empty, and it is that cookie,
    as it is, that [request_refill] receives and sends; when [login]
    raises, [request_refill] is not called. *)
Theorem refill_only_with_login_cookie (w : env) :
  (forall (cookie : string) (med : value) (pre post : list event),
     snd (run w) = (pre ++ CallRequestRefill cookie med :: post)%list ->
     exists cfg,
       from_toml w (CONFIG_PATH w) = Ok cfg
       /\ In (CallLogin (username cfg) (password cfg) (office cfg)) pre
       /\ login_outcome w {| refiller_client.base_url := config.base_url cfg |}
            (username cfg) (password cfg) (office cfg) = Ok cookie
       /\ cookie <> ""
       /\ med = med_id cfg
       /\ In ("Cookie", cookie)
            (aiohttp.headers
               (refill_request w {| refiller_client.base_url := config.base_url cfg |}
                  cookie med))
       /\ In (Post (refill_request w {| refiller_client.base_url := config.base_url cfg |}
                      cookie med)) post)
  /\
  (forall (cfg : Config) (e : exception),
     from_toml w (CONFIG_PATH w) = Ok cfg ->
     login_outcome w {| refiller_client.base_url := config.base_url cfg |}
       (username cfg) (password cfg) (office cfg) = Raise e ->
     forall cookie med, ~ In (CallRequestRefill cookie med) (snd (run w))).
Proof.
  split.
  - intros cookie med pre post H. rewrite run_eq in H.
    destruct (from_toml w (CONFIG_PATH w)) as [cfg|e]; cbn in H.
    2: { locate H. }
    exists cfg. split; [reflexivity|].
    destruct (login_outcome w _ (username cfg) (password cfg) (office cfg))
      as [c|e] eqn:Hlogin; cbn in H.
    2: { locate H. }
    pose proof (login_outcome_nonempty _ _ _ _ _ _ Hlogin) as Hne.
    destruct (refill_outcome w _ c (med_id cfg)) as [[|]|e]; cbn in H; locate H;
      injection E as <- <-;
      (split; [cbn; tauto|]); (split; [reflexivity|]); (split; [exact Hne|]);
      (split; [reflexivity|]); (split; cbn; tauto).
  - intros cfg e Hcfg Hlogin cookie med Hin.
    rewrite run_eq, Hcfg in Hin. cbv zeta in Hin. rewrite Hlogin in Hin.
    cbn in Hin. intuition discriminate.
Qed.

Lemma refill_only_with_login_cookie_witness :
  (exists cfg,
     from_toml happy_env (CONFIG_PATH happy_env) = Ok cfg
     /\ In (CallLogin (username cfg) (password cfg) (office cfg))
          (firstn 6 (snd (run happy_env)))
     /\ login_outcome happy_env
          {| refiller_client.base_url := config.base_url cfg |}
          (username cfg) (password cfg) (office cfg) = Ok "s=1"
     /\ "s=1" <> ""
     /\ TStr "aspirin" = med_id cfg
     /\ In ("Cookie", "s=1")
          (aiohttp.headers
             (refill_request happy_env
                {| refiller_client.base_url := config.base_url cfg |}
                "s=1" (TStr "aspirin")))
     /\ In (Post (refill_request happy_env
                    {| refiller_client.base_url := config.base_url cfg |}
                    "s=1" (TStr "aspirin")))
          (skipn 7 (snd (run happy_env))))
  /\
  (forall cookie med,
     ~ In (CallRequestRefill cookie med) (snd (run unreachable_env))).
Proof.
  split.
  - apply (refill_only_with_login_cookie happy_env).
    vm_compute. reflexivity.
  - destruct (refill_only_with_login_cookie unreachable_env) as [_ Hnever].
    eapply Hnever; vm_compute; reflexivity.
Defined.

(** C4: once the client is constructed, whatever [login] and
    [request_refill] return or raise, the run ends with [close], [close] is
    called exactly once, and [main] returns: nothing raised by [login] or
    [request_refill] leaves it. *)
Theorem close_once_and_nothing_escapes (w : env) (b : value) :
  In (NewClient b) (snd (run w)) ->
  fst (run w) = Ok tt
  /\ length (List.filter is_close (snd (run w))) = 1
  /\ exists pre, snd (run w) = (pre ++ [CallClose])%list.
Proof.
  intros Hnew. rewrite run_eq in *.
  destruct (from_toml w (CONFIG_PATH w)) as [cfg|e].
  2: { cbn in Hnew. destruct Hnew as [Hd|[]]. discriminate Hd. }
  cbv zeta. clear Hnew.
  destruct (login_outcome w _ (username cfg) (password cfg) (office cfg))
    as [cookie|e].
  2: { split; [reflexivity|]. split; [reflexivity|]. eexists.
       cbn [snd app]. now instantiate (1 := [_; _; _; _; _; _]). }
  destruct (refill_outcome w _ cookie (med_id cfg)) as [[|]|e];
    (split; [reflexivity|]); (split; [reflexivity|]); eexists;
    cbn [snd app]; now instantiate (1 := [_; _; _; _; _; _; _; _; _]).
Qed.

Lemma close_once_and_nothing_escapes_witness :
  (fst (run happy_env) = Ok tt
   /\ length (List.filter is_close (snd (run happy_env))) = 1
   /\ exists pre, snd (run happy_env) = (pre ++ [CallClose])%list)
  /\
  (fst (run unreachable_env) = Ok tt
   /\ length (List.filter is_close (snd (run unreachable_env))) = 1
   /\ exists pre, snd (run unreachable_env) = (pre ++ [CallClose])%list)
  /\
  (fst (run refill_500_env) = Ok tt
   /\ length (List.filter is_close (snd (run refill_500_env))) = 1
   /\ exists pre, snd (run refill_500_env) = (pre ++ [CallClose])%list).
Proof.
  split; [|split].
  - apply (close_once_and_nothing_escapes happy_env (TStr "http://x")).
    vm_compute. tauto.
  - apply (close_once_and_nothing_escapes unreachable_env (TStr "http://x")).
    vm_compute. tauto.
  - apply (close_once_and_nothing_escapes refill_500_env (TStr "http://x")).
    vm_compute. tauto.
Defined.

(** C8: when loading the configuration raises, [main] raises that same
    exception; the run has logged its start and done nothing else: no
    client, no [login], no [request_refill], no POST, no [close]. *)
Theorem config_error_aborts_before_network (w : env) (e : exception) :
  from_toml w (CONFIG_PATH w) = Raise e ->
  fst (run w) = Raise e
  /\ snd (run w) = [LogInfo "💊 Starting refiller service..."]
  /\ forall ev, In ev (snd (run w)) -> is_network ev = false.
Proof.
  intros Hcfg. rewrite run_eq, Hcfg.
  split; [reflexivity|]. split; [reflexivity|].
  intros ev [<-|[]]. reflexivity.
Qed.

Lemma config_error_aborts_before_network_witness :
  (fst (run no_file_env) = Raise (FileNotFoundError "Config file not found at config.toml")
   /\ snd (run no_file_env) = [LogInfo "💊 Starting refiller service..."]
   /\ forall ev, In ev (snd (run no_file_env)) -> is_network ev = false)
  /\
  (fst (run (sample_env (Some (Ok incomplete_document))
               (answer 200 "OK" [("Set-Cookie", "s=1")]) (answer 200 "OK" [])))
     = Raise (ValueError
         "Missing or empty required fields in config file: password, med_id, office")).
Proof.
  split.
  - apply (config_error_aborts_before_network no_file_env).
    vm_compute. reflexivity.
  - apply (config_error_aborts_before_network
             (sample_env (Some (Ok incomplete_document))
                (answer 200 "OK" [("Set-Cookie", "s=1")]) (answer 200 "OK" []))).
    vm_compute. reflexivity.
Defined.

(** C9: whichever of [login] and [request_refill] raises, the handler logs
    ["Login failed: "] followed by the exception's text, the client is
    closed, and [main] returns. *)
Theorem handler_logs_login_failed_at_both_stages
    (w : env) (cfg : Config) (e : exception) :
  from_toml w (CONFIG_PATH w) = Ok cfg ->
  login_outcome w {| refiller_client.base_url := config.base_url cfg |}
    (username cfg) (password cfg) (office cfg) = Raise e
  \/ (exists cookie,
        login_outcome w {| refiller_client.base_url := config.base_url cfg |}
          (username cfg) (password cfg) (office cfg) = Ok cookie
        /\ refill_outcome w {| refiller_client.base_url := config.base_url cfg |}
             cookie (med_id cfg) = Raise e) ->
  fst (run w) = Ok tt
  /\ exists pre,
       snd (run w) =
         (pre ++ [LogError ("Login failed: " +:+ exc_str w e); CallClose])%list.
Proof.
  intros Hcfg Hraise. rewrite run_eq, Hcfg. cbv zeta.
  destruct Hraise as [Hlogin | (cookie & Hlogin & Hrefill)].
  - rewrite Hlogin. split; [reflexivity|]. now eexists.
  - rewrite Hlogin, Hrefill. split; [reflexivity|]. now eexists.
Qed.

Lemma handler_logs_login_failed_at_both_stages_witness :
  (fst (run unreachable_env) = Ok tt
   /\ exists pre,
        snd (run unreachable_env) =
          (pre ++ [LogError "Login failed: Cannot connect to host x"; CallClose])%list)
  /\
  (fst (run refill_500_env) = Ok tt
   /\ exists pre,
        snd (run refill_500_env) =
          (pre ++ [LogError "Login failed: Internal Server Error"; CallClose])%list).
Proof.
  split.
  - apply (handler_logs_login_failed_at_both_stages unreachable_env
             sample_config
             (OtherException "ClientConnectorError" "Cannot connect to host x")).
    + vm_compute. reflexivity.
    + left. vm_compute. reflexivity.
  - apply (handler_logs_login_failed_at_both_stages refill_500_env
             sample_config
             (ClientResponseError 500 "Internal Server Error")).
    + vm_compute. reflexivity.
    + right. exists "s=1". split; vm_compute; reflexivity.
Defined.

(** * Further properties *)

(** ** Configuration loading: causes and consequences *)

Lemma filter_nil_all {A} (f : A -> bool) (l : list A) :
  List.filter f l = [] -> forall x, In x l -> f x = false.
Proof.
  intros Hnil x Hin. destruct (f x) eqn:E; [|reflexivity].
  assert (Hx : In x (List.filter f l)) by (apply filter_In; auto).
  rewrite Hnil in Hx. destruct Hx.
Qed.

(** A file that loads either holds the five fields, all true, and gives
    the [Config] of their values, or has an offending field and gives the
    aggregated error. *)
Lemma from_toml_loaded_cases (w : env) (path : string) (doc : document) :
  files w path = Some (Ok doc) ->
  (exists v1 v2 v3 v4 v5,
     (doc !! "username" = Some v1 /\ truthy v1 = true)
     /\ (doc !! "password" = Some v2 /\ truthy v2 = true)
     /\ (doc !! "base_url" = Some v3 /\ truthy v3 = true)
     /\ (doc !! "med_id" = Some v4 /\ truthy v4 = true)
     /\ (doc !! "office" = Some v5 /\ truthy v5 = true)
     /\ from_toml w path =
          Ok {| username := v1; password := v2; config.base_url := v3;
                med_id := v4; office := v5 |})
  \/
  (exists field,
     In field required_fields /\ missing_or_empty doc field = true
     /\ from_toml w path =
          Raise (ValueError
            (missing_message (List.filter (missing_or_empty doc) required_fields)))).
Proof.
  intros Hfile.
  destruct (List.filter (missing_or_empty doc) required_fields) as [|f l] eqn:E.
  - left.
    pose proof (filter_nil_all _ _ E) as Hall.
    assert (Hget : forall field, In field required_fields ->
              exists v, doc !! field = Some v /\ truthy v = true).
    { intros field Hin. apply missing_or_empty_false. now apply Hall. }
    destruct (Hget "username") as (v1 & H1 & T1); [cbn; tauto|].
    destruct (Hget "password") as (v2 & H2 & T2); [cbn; tauto|].
    destruct (Hget "base_url") as (v3 & H3 & T3); [cbn; tauto|].
    destruct (Hget "med_id") as (v4 & H4 & T4); [cbn; tauto|].
    destruct (Hget "office") as (v5 & H5 & T5); [cbn; tauto|].
    exists v1, v2, v3, v4, v5. repeat (split; [now split|]).
    now apply from_toml_complete with (doc := doc).
  - right. exists f.
    assert (Hf : In f (List.filter (missing_or_empty doc) required_fields))
      by (rewrite E; now left).
    apply filter_In in Hf as [Hin Hmiss].
    split; [exact Hin|]. split; [exact Hmiss|].
    rewrite <- E. now apply from_toml_incomplete with (field := f).
Qed.

Lemma missing_message_not_parse_error (fields : list string) (text : string) :
  missing_message fields <> "Error parsing config file: " +:+ text.
Proof. unfold missing_message. intros H. vm_compute in H. discriminate H. Qed.

(** X1: the guard around the construction of the [Config] never fires.
    For a file that loads, [from_toml] does not raise the
    ["Error parsing config file: ..."] error, whatever the document. *)
Theorem from_toml_never_reports_parse_error
    (w : env) (path : string) (doc : document) (text : string) :
  files w path = Some (Ok doc) ->
  from_toml w path <> Raise (ValueError ("Error parsing config file: " +:+ text)).
Proof.
  intros Hfile H.
  destruct (from_toml_loaded_cases w path doc Hfile)
    as [(v1 & v2 & v3 & v4 & v5 & _ & _ & _ & _ & _ & Hok) | (f & _ & _ & Hraise)].
  - rewrite Hok in H. discriminate H.
  - rewrite Hraise in H.
    apply (missing_message_not_parse_error
             (List.filter (missing_or_empty doc) required_fields) text).
    congruence.
Qed.

Lemma from_toml_never_reports_parse_error_witness :
  from_toml (sample_env (Some (Ok (∅ : document))) (answer 200 "OK" []) (answer 200 "OK" []))
    "config.toml"
  <> Raise (ValueError ("Error parsing config file: " +:+ "'username'")).
Proof.
  apply (from_toml_never_reports_parse_error
           (sample_env (Some (Ok (∅ : document))) (answer 200 "OK" []) (answer 200 "OK" []))
           "config.toml" ∅ "'username'" eq_refl).
Defined.

(** X2: a [Config] that [from_toml] returns comes from a file that exists
    and loads; each of its five fields is the document's value under the
    field's key, and none of them is false. *)
Theorem from_toml_ok_inversion (w : env) (path : string) (c : Config) :
  from_toml w path = Ok c ->
  exists doc,
    files w path = Some (Ok doc)
    /\ (doc !! "username" = Some (username c) /\ truthy (username c) = true)
    /\ (doc !! "password" = Some (password c) /\ truthy (password c) = true)
    /\ (doc !! "base_url" = Some (config.base_url c)
        /\ truthy (config.base_url c) = true)
    /\ (doc !! "med_id" = Some (med_id c) /\ truthy (med_id c) = true)
    /\ (doc !! "office" = Some (office c) /\ truthy (office c) = true).
Proof.
  intros Hok.
  destruct (files w path) as [[doc|e]|] eqn:Hfile.
  - exists doc. split; [reflexivity|].
    destruct (from_toml_loaded_cases w path doc Hfile)
      as [(v1 & v2 & v3 & v4 & v5 & H1 & H2 & H3 & H4 & H5 & Hc)
         | (f & _ & _ & Hraise)].
    + rewrite Hc in Hok. injection Hok as <-. cbn. tauto.
    + rewrite Hraise in Hok. discriminate Hok.
  - unfold from_toml in Hok. rewrite Hfile in Hok. discriminate Hok.
  - unfold from_toml in Hok. rewrite Hfile in Hok. discriminate Hok.
Qed.

Lemma from_toml_ok_inversion_witness :
  exists doc,
    files happy_env "config.toml" = Some (Ok doc)
    /\ (doc !! "username" = Some (username sample_config)
        /\ truthy (username sample_config) = true)
    /\ (doc !! "password" = Some (password sample_config)
        /\ truthy (password sample_config) = true)
    /\ (doc !! "base_url" = Some (config.base_url sample_config)
        /\ truthy (config.base_url sample_config) = true)
    /\ (doc !! "med_id" = Some (med_id sample_config)
        /\ truthy (med_id sample_config) = true)
    /\ (doc !! "office" = Some (office sample_config)
        /\ truthy (office sample_config) = true).
Proof.
  apply (from_toml_ok_inversion happy_env "config.toml" sample_config).
  vm_compute. reflexivity.
Defined.

(** X3: [from_toml] fails for three reasons and no other: there is no file
    at the path ([FileNotFoundError] naming the path), loading the file
    raised (that exception, as it is, not wrapped), or a required field is
    absent or false (the aggregated [ValueError]). *)
Theorem from_toml_failure_causes (w : env) (path : string) (e : exception) :
  from_toml w path = Raise e ->
  (files w path = None
   /\ e = FileNotFoundError ("Config file not found at " +:+ path))
  \/ files w path = Some (Raise e)
  \/ (exists doc,
        files w path = Some (Ok doc)
        /\ (exists field, In field required_fields /\ absent_or_falsy doc field)
        /\ e = ValueError
                 (missing_message
                    (List.filter (missing_or_empty doc) required_fields))).
Proof.
  intros Hraise.
  destruct (files w path) as [[doc|e']|] eqn:Hfile.
  - right. right. exists doc. split; [reflexivity|].
    destruct (from_toml_loaded_cases w path doc Hfile)
      as [(v1 & v2 & v3 & v4 & v5 & _ & _ & _ & _ & _ & Hok)
         | (f & Hin & Hmiss & Hr)].
    + rewrite Hok in Hraise. discriminate Hraise.
    + split.
      * exists f. split; [exact Hin|]. now apply missing_or_empty_true.
      * rewrite Hr in Hraise. now injection Hraise as <-.
  - right. left. unfold from_toml in Hraise. rewrite Hfile in Hraise.
    cbn in Hraise. now injection Hraise as ->.
  - left. split; [reflexivity|].
    unfold from_toml in Hraise. rewrite Hfile in Hraise.
    now injection Hraise as <-.
Qed.

Lemma from_toml_failure_causes_witness :
  ((files no_file_env "config.toml" = None
    /\ FileNotFoundError "Config file not found at config.toml"
       = FileNotFoundError ("Config file not found at " +:+ "config.toml"))
   \/ files no_file_env "config.toml"
      = Some (Raise (FileNotFoundError "Config file not found at config.toml"))
   \/ (exists doc,
         files no_file_env "config.toml" = Some (Ok doc)
         /\ (exists field, In field required_fields /\ absent_or_falsy doc field)
         /\ FileNotFoundError "Config file not found at config.toml"
            = ValueError
                (missing_message
                   (List.filter (missing_or_empty doc) required_fields))))
  /\
  ((files malformed_env "config.toml" = None
    /\ TOMLDecodeError "Invalid value (at line 2, column 24)"
       = FileNotFoundError ("Config file not found at " +:+ "config.toml"))
   \/ files malformed_env "config.toml"
      = Some (Raise (TOMLDecodeError "Invalid value (at line 2, column 24)"))
   \/ (exists doc,
         files malformed_env "config.toml" = Some (Ok doc)
         /\ (exists field, In field required_fields /\ absent_or_falsy doc field)
         /\ TOMLDecodeError "Invalid value (at line 2, column 24)"
            = ValueError
                (missing_message
                   (List.filter (missing_or_empty doc) required_fields)))).
Proof.
  split.
  - apply (from_toml_failure_causes no_file_env "config.toml"). reflexivity.
  - apply (from_toml_failure_causes malformed_env "config.toml"). reflexivity.
Defined.

Lemma filter_sublist {A} (f : A -> bool) (l : list A) :
  sublist (List.filter f l) l.
Proof.
  induction l as [|x l IH]; cbn [List.filter]; [constructor|].
  destruct (f x); now constructor.
Qed.

(** X4: the aggregated error lists the offending required fields and only
    those, each once, in the order in which the fields are declared. *)
Theorem from_toml_lists_exactly_the_offending_fields
    (w : env) (path : string) (doc : document) (msg : string) :
  files w path = Some (Ok doc) ->
  from_toml w path = Raise (ValueError msg) ->
  exists fields,
    msg = "Missing or empty required fields in config file: "
          +:+ String.concat ", " fields
    /\ sublist fields required_fields
    /\ forall field,
         In field fields <-> In field required_fields /\ absent_or_falsy doc field.
Proof.
  intros Hfile Hraise.
  exists (List.filter (missing_or_empty doc) required_fields).
  split; [|split].
  - destruct (from_toml_loaded_cases w path doc Hfile)
      as [(v1 & v2 & v3 & v4 & v5 & _ & _ & _ & _ & _ & Hok) | (f & _ & _ & Hr)].
    + rewrite Hok in Hraise. discriminate Hraise.
    + rewrite Hr in Hraise. now injection Hraise as <-.
  - apply filter_sublist.
  - intros field. rewrite filter_In, missing_or_empty_true. reflexivity.
Qed.

Lemma from_toml_lists_exactly_the_offending_fields_witness :
  exists fields,
    "Missing or empty required fields in config file: password, med_id, office"
      = "Missing or empty required fields in config file: "
        +:+ String.concat ", " fields
    /\ sublist fields required_fields
    /\ forall field,
         In field fields
         <-> In field required_fields /\ absent_or_falsy incomplete_document field.
Proof.
  apply (from_toml_lists_exactly_the_offending_fields
           (sample_env (Some (Ok incomplete_document)) (answer 200 "OK" []) (answer 200 "OK" []))
           "config.toml" incomplete_document _ eq_refl).
  vm_compute. reflexivity.
Defined.

(** X5: keys other than the five required ones have no effect: a document
    and the same document with one more such key, whatever its value, load
    to the same result. *)
Theorem from_toml_ignores_other_keys
    (w w' : env) (path : string) (doc : document) (key : string) (v : value) :
  ~ In key required_fields ->
  files w path = Some (Ok doc) ->
  files w' path = Some (Ok (<[key := v]> doc)) ->
  from_toml w' path = from_toml w path.
Proof.
  intros Hkey Hfile Hfile'.
  assert (Hne : forall field, In field required_fields -> key <> field)
    by (intros field Hin ->; now apply Hkey).
  assert (Hsame : forall field, In field required_fields ->
            (<[key := v]> doc : document) !! field = doc !! field)
    by (intros field Hin; apply lookup_insert_ne; now apply Hne).
  destruct (from_toml_loaded_cases w path doc Hfile)
    as [(v1 & v2 & v3 & v4 & v5 & [H1 T1] & [H2 T2] & [H3 T3] & [H4 T4] & [H5 T5] & Hok)
       | (f & Hin & Hmiss & Hr)].
  - rewrite Hok.
    apply from_toml_complete with (doc := <[key := v]> doc);
      try assumption; rewrite Hsame; try assumption; cbn; tauto.
  - rewrite Hr.
    assert (Hmiss' : missing_or_empty (<[key := v]> doc) f = true)
      by (unfold missing_or_empty in *; now rewrite Hsame).
    destruct (from_toml_incomplete w' path _ f Hfile' Hin Hmiss') as [-> _].
    do 3 f_equal. apply filter_ext_in. intros field Hfield.
    unfold missing_or_empty. now rewrite Hsame.
Qed.

Lemma from_toml_ignores_other_keys_witness :
  from_toml (sample_env (Some (Ok (<["extra_field" := TStr "should be ignored"]>
                                     sample_document)))
               (answer 200 "OK" []) (answer 200 "OK" []))
    "config.toml"
  = from_toml (sample_env (Some (Ok sample_document))
                 (answer 200 "OK" []) (answer 200 "OK" []))
      "config.toml".
Proof.
  apply (from_toml_ignores_other_keys _ _ "config.toml" sample_document
           "extra_field" (TStr "should be ignored")).
  - cbn. intros [H|[H|[H|[H|[H|[]]]]]]; discriminate H.
  - reflexivity.
  - reflexivity.
Defined.

(** X6: for string values the check is non-emptiness and nothing more: a
    document whose five required fields are strings loads if and only if
    none of the five is the empty string (a string of blanks passes). *)
Theorem from_toml_strings_load_iff_nonempty
    (w : env) (path : string) (doc : document) (s1 s2 s3 s4 s5 : string) :
  files w path = Some (Ok doc) ->
  doc !! "username" = Some (TStr s1) ->
  doc !! "password" = Some (TStr s2) ->
  doc !! "base_url" = Some (TStr s3) ->
  doc !! "med_id" = Some (TStr s4) ->
  doc !! "office" = Some (TStr s5) ->
  from_toml w path =
    Ok {| username := TStr s1; password := TStr s2; config.base_url := TStr s3;
          med_id := TStr s4; office := TStr s5 |}
  <-> s1 <> "" /\ s2 <> "" /\ s3 <> "" /\ s4 <> "" /\ s5 <> "".
Proof.
  intros Hfile H1 H2 H3 H4 H5.
  assert (Htruthy : forall s, truthy (TStr s) = true <-> s <> "").
  { intros s. cbn. rewrite Bool.negb_true_iff. apply String.eqb_neq. }
  split.
  - intros Hok.
    destruct (from_toml_loaded_cases w path doc Hfile)
      as [(v1 & v2 & v3 & v4 & v5 & [G1 T1] & [G2 T2] & [G3 T3] & [G4 T4] & [G5 T5] & _)
         | (f & _ & _ & Hr)].
    + rewrite <- !Htruthy.
      rewrite H1 in G1. rewrite H2 in G2. rewrite H3 in G3.
      rewrite H4 in G4. rewrite H5 in G5.
      injection G1 as <-. injection G2 as <-. injection G3 as <-.
      injection G4 as <-. injection G5 as <-. tauto.
    + rewrite Hr in Hok. discriminate Hok.
  - intros (N1 & N2 & N3 & N4 & N5).
    apply from_toml_complete with (doc := doc); try assumption;
      now apply Htruthy.
Qed.

Lemma from_toml_strings_load_iff_nonempty_witness :
  from_toml (sample_env (Some (Ok blank_document)) (answer 200 "OK" []) (answer 200 "OK" []))
    "config.toml" =
    Ok {| username := TStr " "; password := TStr " "; config.base_url := TStr " ";
          med_id := TStr " "; office := TStr " " |}.
Proof.
  apply (from_toml_strings_load_iff_nonempty
           (sample_env (Some (Ok blank_document)) (answer 200 "OK" []) (answer 200 "OK" []))
           "config.toml" blank_document " " " " " " " " " "
           eq_refl eq_refl eq_refl eq_refl eq_refl eq_refl).
  repeat split; discriminate.
Defined.

(** ** The client: what goes out and what comes back *)

(** X7: whatever the service answers, and also when the POST itself
    raises, [login] sends exactly one POST: to the base URL followed by
    ["/login"], with the form fields [office], [username] and [password]
    holding its arguments, and with redirects not followed.  An exception
    of the POST leaves [login] as it is. *)
Theorem login_posts_once_without_redirects
    (w : env) (self : RefillerClient) (u p o : value) (t : list event) :
  exists req,
    snd (login w self u p o t) = (t ++ [CallLogin u p o; Post req])%list
    /\ aiohttp.url req = py_str w (refiller_client.base_url self) +:+ "/login"
    /\ aiohttp.data req = [("office", o); ("username", u); ("password", p)]
    /\ aiohttp.headers req = [("Content-Type", "application/x-www-form-urlencoded")]
    /\ aiohttp.allow_redirects req = false
    /\ forall e, http_post w req = Raise e -> fst (login w self u p o t) = Raise e.
Proof.
  exists (login_request w self u p o). rewrite login_run. cbn [fst snd].
  repeat (split; [reflexivity|]).
  intros e He. now rewrite login_outcome_eq, He.
Qed.

(** X8: a cookie that [login] returns is one the service sent: the POST was
    answered, with a status below 400, and the returned string is the
    answer's [Set-Cookie] value, which is not empty. *)
Theorem login_ok_inversion
    (w : env) (self : RefillerClient) (u p o : value) (t : list event)
    (cookie : string) :
  fst (login w self u p o t) = Ok cookie ->
  exists resp req,
    In (Post req) (snd (login w self u p o t))
    /\ http_post w req = Ok resp
    /\ (aiohttp.status resp < 400)%Z
    /\ aiohttp.headers_get "Set-Cookie" (aiohttp.resp_headers resp) = Some cookie
    /\ cookie <> "".
Proof.
  rewrite login_run. cbn [fst snd]. rewrite login_outcome_eq. intros H.
  destruct (http_post w (login_request w self u p o)) as [resp|e] eqn:Hpost;
    [|discriminate H].
  exists resp, (login_request w self u p o).
  split; [apply in_or_app; right; cbn; tauto|]. split; [exact Hpost|].
  destruct (400 <=? aiohttp.status resp)%Z eqn:Hs; [discriminate H|].
  apply Z.leb_gt in Hs. split; [exact Hs|].
  destruct (aiohttp.headers_get "Set-Cookie" (aiohttp.resp_headers resp)) as [c|];
    [|discriminate H].
  destruct (String.eqb c "") eqn:Hc; [discriminate H|].
  injection H as <-. split; [reflexivity|]. now apply String.eqb_neq.
Qed.

Lemma login_ok_inversion_witness :
  exists resp req,
    In (Post req)
       (snd (login happy_env sample_client (TStr "u") (TStr "p") (TStr "o1") []))
    /\ http_post happy_env req = Ok resp
    /\ (aiohttp.status resp < 400)%Z
    /\ aiohttp.headers_get "Set-Cookie" (aiohttp.resp_headers resp) = Some "s=1"
    /\ "s=1" <> "".
Proof.
  apply (login_ok_inversion happy_env sample_client
           (TStr "u") (TStr "p") (TStr "o1") [] "s=1").
  reflexivity.
Defined.

(** X9: [login] raises for three reasons and no other: the POST raised
    (that exception), the answer's status is 400 or more (the HTTP error of
    that status and reason), or the status is below 400 and the answer has
    no [Set-Cookie] value or an empty one (the [ValueError]). *)
Theorem login_failure_causes
    (w : env) (self : RefillerClient) (u p o : value) (t : list event)
    (e : exception) :
  fst (login w self u p o t) = Raise e ->
  http_post w (login_request w self u p o) = Raise e
  \/ exists resp,
       http_post w (login_request w self u p o) = Ok resp
       /\ (((400 <= aiohttp.status resp)%Z
            /\ e = ClientResponseError (aiohttp.status resp) (aiohttp.reason resp))
           \/
           ((aiohttp.status resp < 400)%Z
            /\ (aiohttp.headers_get "Set-Cookie" (aiohttp.resp_headers resp) = None
                \/ aiohttp.headers_get "Set-Cookie" (aiohttp.resp_headers resp)
                   = Some "")
            /\ e = ValueError "Login failed: No session cookie received")).
Proof.
  rewrite login_run. cbn [fst]. rewrite login_outcome_eq. intros H.
  destruct (http_post w (login_request w self u p o)) as [resp|e'];
    [right; exists resp; split; [reflexivity|] | left; now injection H as <-].
  destruct (400 <=? aiohttp.status resp)%Z eqn:Hs.
  - left. apply Z.leb_le in Hs. split; [exact Hs|]. now injection H as <-.
  - right. apply Z.leb_gt in Hs. split; [exact Hs|].
    destruct (aiohttp.headers_get "Set-Cookie" (aiohttp.resp_headers resp)) as [c|].
    + destruct (String.eqb c "") eqn:Hc; [|discriminate H].
      apply String.eqb_eq in Hc as ->. split; [now right|]. now injection H as <-.
    + split; [now left|]. now injection H as <-.
Qed.

Lemma login_failure_causes_witness :
  http_post unreachable_env
    (login_request unreachable_env sample_client (TStr "u") (TStr "p") (TStr "o1"))
    = Raise (OtherException "ClientConnectorError" "Cannot connect to host x")
  \/ exists resp,
       http_post unreachable_env
         (login_request unreachable_env sample_client (TStr "u") (TStr "p") (TStr "o1"))
         = Ok resp
       /\ (((400 <= aiohttp.status resp)%Z
            /\ OtherException "ClientConnectorError" "Cannot connect to host x"
               = ClientResponseError (aiohttp.status resp) (aiohttp.reason resp))
           \/
           ((aiohttp.status resp < 400)%Z
            /\ (aiohttp.headers_get "Set-Cookie" (aiohttp.resp_headers resp) = None
                \/ aiohttp.headers_get "Set-Cookie" (aiohttp.resp_headers resp)
                   = Some "")
            /\ OtherException "ClientConnectorError" "Cannot connect to host x"
               = ValueError "Login failed: No session cookie received")).
Proof.
  apply (login_failure_causes unreachable_env sample_client
           (TStr "u") (TStr "p") (TStr "o1") []).
  reflexivity.
Defined.


Lemma login_posts_once_without_redirects_witness :
  exists req,
    snd (login redirect_env sample_client (TStr "u") (TStr "p") (TStr "o1") [])
      = ([] ++ [CallLogin (TStr "u") (TStr "p") (TStr "o1"); Post req])%list
    /\ aiohttp.url req
       = py_str redirect_env (refiller_client.base_url sample_client) +:+ "/login"
    /\ aiohttp.data req
       = [("office", TStr "o1"); ("username", TStr "u"); ("password", TStr "p")]
    /\ aiohttp.headers req = [("Content-Type", "application/x-www-form-urlencoded")]
    /\ aiohttp.allow_redirects req = false
    /\ forall e,
         http_post redirect_env req = Raise e ->
         fst (login redirect_env sample_client (TStr "u") (TStr "p") (TStr "o1") [])
           = Raise e.
Proof.
  exact (login_posts_once_without_redirects redirect_env sample_client
           (TStr "u") (TStr "p") (TStr "o1") []).
Defined.


(** ** The orchestrator: outcomes, attempts and log lines *)

(** X11: [main] raises exactly when loading the configuration raises, and
    then the same exception; in every other run it returns. *)
Theorem main_raises_only_configuration_errors (w : env) (e : exception) :
  fst (run w) = Raise e <-> from_toml w (CONFIG_PATH w) = Raise e.
Proof.
  rewrite run_eq.
  destruct (from_toml w (CONFIG_PATH w)) as [cfg|e'].
  - cbv zeta.
    destruct (login_outcome w _ (username cfg) (password cfg) (office cfg))
      as [cookie|e1]; [|split; discriminate].
    destruct (refill_outcome w _ cookie (med_id cfg)) as [[|]|e2];
      split; discriminate.
  - cbn [fst]. split; intros [= ->]; reflexivity.
Qed.


(** X13: when [request_refill] returns, its boolean alone decides the last
    log line: the success line at level info for [True], the failure line
    at level error for [False]; no ["Login failed"] line is written, and
    [main] returns after one [close]. *)
Theorem refill_result_decides_last_log
    (w : env) (cfg : Config) (cookie : string) (success : bool) :
  from_toml w (CONFIG_PATH w) = Ok cfg ->
  login_outcome w {| refiller_client.base_url := config.base_url cfg |}
    (username cfg) (password cfg) (office cfg) = Ok cookie ->
  refill_outcome w {| refiller_client.base_url := config.base_url cfg |}
    cookie (med_id cfg) = Ok success ->
  fst (run w) = Ok tt
  /\ (exists pre,
        snd (run w) =
          (pre ++
           [if success
            then LogInfo "✅ Medication refill request successful!"
            else LogError "❌ Medication refill request failed...";
            CallClose])%list)
  /\ (forall msg,
        In (LogError msg) (snd (run w)) ->
        success = false /\ msg = "❌ Medication refill request failed...").
Proof.
  intros Hcfg Hlogin Hrefill. rewrite run_eq, Hcfg. cbv zeta.
  rewrite Hlogin, Hrefill.
  destruct success; cbn [fst snd app].
  - split; [reflexivity|]. split.
    + eexists. now instantiate (1 := [_; _; _; _; _; _; _; _]).
    + intros msg Hin. cbn in Hin.
      repeat (destruct Hin as [Hin|Hin]; [discriminate Hin|]). destruct Hin.
  - split; [reflexivity|]. split.
    + eexists. now instantiate (1 := [_; _; _; _; _; _; _; _]).
    + intros msg Hin. cbn in Hin.
      repeat (destruct Hin as [Hin|Hin];
              [first [discriminate Hin | now injection Hin as <-]|]).
      destruct Hin.
Qed.

Lemma refill_result_decides_last_log_witness :
  fst (run refill_201_env) = Ok tt
  /\ (exists pre,
        snd (run refill_201_env) =
          (pre ++
           [if false
            then LogInfo "✅ Medication refill request successful!"
            else LogError "❌ Medication refill request failed...";
            CallClose])%list)
  /\ (forall msg,
        In (LogError msg) (snd (run refill_201_env)) ->
        false = false /\ msg = "❌ Medication refill request failed...").
Proof.
  apply (refill_result_decides_last_log refill_201_env sample_config "s=1" false);
    vm_compute; reflexivity.
Defined.

(** X14: the success line is logged in exactly one situation: the
    configuration loaded, [login] returned a cookie, and the response that
    [ClientSession.post] handed back for the refill request made with that
    cookie (the last response, when a redirect was followed) has status
    200. *)
Theorem success_line_iff_refill_answered_200 (w : env) :
  In (LogInfo "✅ Medication refill request successful!") (snd (run w))
  <->
  exists cfg cookie resp,
    from_toml w (CONFIG_PATH w) = Ok cfg
    /\ login_outcome w {| refiller_client.base_url := config.base_url cfg |}
         (username cfg) (password cfg) (office cfg) = Ok cookie
    /\ http_post w
         (refill_request w {| refiller_client.base_url := config.base_url cfg |}
            cookie (med_id cfg)) = Ok resp
    /\ aiohttp.status resp = 200%Z.
Proof.
  rewrite run_eq. split.
  - destruct (from_toml w (CONFIG_PATH w)) as [cfg|e].
    2: { cbn. intros [H|[]]. discriminate H. }
    cbv zeta.
    destruct (login_outcome w _ (username cfg) (password cfg) (office cfg))
      as [cookie|e1] eqn:Hlogin.
    2: { cbn. intros Hin.
         repeat (destruct Hin as [Hin|Hin]; [discriminate Hin|]). destruct Hin. }
    rewrite refill_outcome_eq.
    destruct (http_post w (refill_request w _ cookie (med_id cfg)))
      as [resp|e2] eqn:Hpost.
    2: { cbn. intros Hin.
         repeat (destruct Hin as [Hin|Hin]; [discriminate Hin|]). destruct Hin. }
    destruct (400 <=? aiohttp.status resp)%Z.
    { cbn. intros Hin.
      repeat (destruct Hin as [Hin|Hin]; [discriminate Hin|]). destruct Hin. }
    destruct (aiohttp.status resp =? 200)%Z eqn:Hs.
    + intros _. exists cfg, cookie, resp. apply Z.eqb_eq in Hs. now repeat split.
    + cbn. intros Hin.
      repeat (destruct Hin as [Hin|Hin]; [discriminate Hin|]). destruct Hin.
  - intros (cfg & cookie & resp & Hcfg & Hlogin & Hpost & Hs).
    rewrite Hcfg. cbv zeta. rewrite Hlogin, refill_outcome_eq, Hpost, Hs.
    cbn. tauto.
Qed.

(** X15: when the login is answered below 400 without a cookie, the one
    error line of the run carries the prefix twice, the handler's and the
    exception's own, and nothing is sent after the login POST. *)
Theorem missing_cookie_is_logged_with_doubled_prefix
    (w : env) (cfg : Config) (resp : aiohttp.response) :
  from_toml w (CONFIG_PATH w) = Ok cfg ->
  http_post w
    (login_request w {| refiller_client.base_url := config.base_url cfg |}
       (username cfg) (password cfg) (office cfg)) = Ok resp ->
  (aiohttp.status resp < 400)%Z ->
  aiohttp.headers_get "Set-Cookie" (aiohttp.resp_headers resp) = None
  \/ aiohttp.headers_get "Set-Cookie" (aiohttp.resp_headers resp) = Some "" ->
  run w =
    (Ok tt,
     [LogInfo "💊 Starting refiller service...";
      NewClient (config.base_url cfg);
      LogInfo "🔐 Logging in to retrieve session cookie...";
      CallLogin (username cfg) (password cfg) (office cfg);
      Post (login_request w {| refiller_client.base_url := config.base_url cfg |}
              (username cfg) (password cfg) (office cfg));
      LogError "Login failed: Login failed: No session cookie received";
      CallClose]).
Proof.
  intros Hcfg Hpost Hlt Hcookie. rewrite run_eq, Hcfg. cbv zeta.
  rewrite login_outcome_eq, Hpost.
  apply Z.leb_gt in Hlt. rewrite Hlt.
  destruct Hcookie as [-> | ->]; reflexivity.
Qed.

Lemma missing_cookie_is_logged_with_doubled_prefix_witness :
  run no_cookie_env =
    (Ok tt,
     [LogInfo "💊 Starting refiller service...";
      NewClient (config.base_url sample_config);
      LogInfo "🔐 Logging in to retrieve session cookie...";
      CallLogin (username sample_config) (password sample_config)
        (office sample_config);
      Post (login_request no_cookie_env
              {| refiller_client.base_url := config.base_url sample_config |}
              (username sample_config) (password sample_config)
              (office sample_config));
      LogError "Login failed: Login failed: No session cookie received";
      CallClose]).
Proof.
  apply (missing_cookie_is_logged_with_doubled_prefix no_cookie_env sample_config
           {| aiohttp.status := 200; aiohttp.reason := "OK";
              aiohttp.resp_headers := [] |}).
  - vm_compute. reflexivity.
  - reflexivity.
  - cbn. lia.
  - left. reflexivity.
Defined.



(** ** Redirects followed by the session *)

(** With redirects off, as at the login, the response handed back is the
    service's answer to the one request made. *)
Lemma session_post_without_redirects (tr : aiohttp.transport) (req : aiohttp.request) :
  aiohttp.allow_redirects req = false ->
  aiohttp.session_post tr req = aiohttp.send tr (aiohttp.initial req).
Proof.
  intros Hoff. unfold aiohttp.session_post. rewrite Hoff. cbn.
  destruct (aiohttp.send tr (aiohttp.initial req)) as [resp|e]; [|reflexivity].
  now rewrite Bool.andb_false_r.
Qed.

(** An answer that is no redirect, or a redirect without a target, is
    handed back as it is. *)
Lemma session_post_not_followed
    (tr : aiohttp.transport) (req : aiohttp.request) (resp : aiohttp.response) :
  aiohttp.send tr (aiohttp.initial req) = Ok resp ->
  aiohttp.is_redirect (aiohttp.status resp) = false
  \/ aiohttp.location resp = None ->
  aiohttp.session_post tr req = Ok resp.
Proof.
  intros Hsend Hdirect. unfold aiohttp.session_post. cbn. rewrite Hsend.
  destruct Hdirect as [-> | Hloc]; [reflexivity|].
  destruct (aiohttp.is_redirect (aiohttp.status resp) && aiohttp.allow_redirects req);
    [|reflexivity].
  now rewrite Hloc.
Qed.

(** C1, as stated, fails at a redirect that the session follows: the
    service answers the refill POST with a 301, a status below 400 other
    than 200, and the GET that follows with a 200; [request_refill] returns
    [true], not [false]. *)
Lemma refill_redirect_followed_returns_true :
  aiohttp.send moved_transport
    (aiohttp.initial
       (refill_request moved_env sample_client "s=1" (TStr "aspirin")))
    = Ok moved_response
  /\ (aiohttp.status moved_response < 400)%Z
  /\ aiohttp.status moved_response <> 200%Z
  /\ fst (request_refill moved_env sample_client "s=1" (TStr "aspirin") [])
     = Ok true
  /\ fst (request_refill moved_env sample_client "s=1" (TStr "aspirin") [])
     <> Ok false.
Proof.
  split; [reflexivity|]. split; [cbn; lia|]. split; [cbn; lia|].
  split; [reflexivity|]. vm_compute. discriminate.
Qed.

(** The run over that service logs the success line, although no answer to
    the refill POST itself had status 200. *)
Example run_moved_logs_success :
  fst (run moved_env) = Ok tt
  /\ In (LogInfo "✅ Medication refill request successful!") (snd (run moved_env))
  /\ count is_post (snd (run moved_env)) = 2.
Proof. vm_compute. tauto. Qed.
